(** * The matching engine of the job/candidate matcher

    A shallow embedding of the domain layer (value objects, entities, the
    weighted scorer), the document mappers, the two Elasticsearch
    repositories, the stand-alone Elasticsearch service and the application
    service, followed by the properties of the specification.

    Conventions of the embedding:
    - a Python [str] is a [string] of 8-bit characters; [strip] and [lower]
      act on the ASCII range;
    - a Python [float] is an exact rational ([Q]); the constants of the
      scorer (2.0, 1.5, 1.0, 0.0) are exact in both;
    - a Python [dict] with string keys is a [gmap string _];
    - a raised exception is the [Raise] branch of [result]. *)

From Stdlib Require Import Ascii String ZArith QArith Qfield Lia Lqa.
From stdpp Require Import base strings list gmap fin_maps.

Set Warnings "-register-all".

Local Open Scope string_scope.
Local Open Scope list_scope.

(** ** Exceptions and results *)

Inductive exception :=
| ValueError (msg : string)
| TypeError
| AttributeError
| KeyError (key : string)
| NotFoundError
| ConnectionError (msg : string).

Inductive result (A : Type) :=
| Ok (a : A)
| Raise (e : exception).
Arguments Ok {A} a.
Arguments Raise {A} e.

#[global] Instance result_ret : MRet result := fun _ a => Ok a.

#[global] Instance result_bind : MBind result := fun _ _ k r =>
  match r with
  | Ok a => k a
  | Raise e => Raise e
  end.

(** [[f(x) for x in xs]] where [f] may raise: the first failure aborts. *)
Fixpoint comprehension {A B} (f : A -> result B) (xs : list A) : result (list B) :=
  match xs with
  | [] => Ok []
  | x :: xs' => y ← f x; ys ← comprehension f xs'; Ok (y :: ys)
  end.

Definition is_ok {A} (r : result A) : bool :=
  match r with Ok _ => true | Raise _ => false end.

(** ** Strings *)

Definition is_upper (c : ascii) : bool :=
  let n := nat_of_ascii c in (65 <=? n)%nat && (n <=? 90)%nat.

Definition ascii_lower (c : ascii) : ascii :=
  if is_upper c then ascii_of_nat (nat_of_ascii c + 32) else c.

(** [s.lower()] *)
Fixpoint str_lower (s : string) : string :=
  match s with
  | EmptyString => EmptyString
  | String c s' => String (ascii_lower c) (str_lower s')
  end.

(** [c.isspace()] on the ASCII range: tab, line feed, vertical tab, form
    feed, carriage return, the four separators 28..31 and the space. *)
Definition isspace (c : ascii) : bool :=
  let n := nat_of_ascii c in
  ((9 <=? n)%nat && (n <=? 13)%nat) || ((28 <=? n)%nat && (n <=? 32)%nat).

Fixpoint str_lstrip (s : string) : string :=
  match s with
  | EmptyString => EmptyString
  | String c s' => if isspace c then str_lstrip s' else s
  end.

Fixpoint str_rstrip (s : string) : string :=
  match s with
  | EmptyString => EmptyString
  | String c s' =>
      match str_rstrip s' with
      | EmptyString => if isspace c then EmptyString else String c EmptyString
      | kept => String c kept
      end
  end.

(** [s.strip()] *)
Definition str_strip (s : string) : string := str_rstrip (str_lstrip s).

(** [sep.join(xs)] *)
Fixpoint str_join (sep : string) (xs : list string) : string :=
  match xs with
  | [] => ""
  | [x] => x
  | x :: xs' => x ++ sep ++ str_join sep xs'
  end.

(** [not s] for a string. *)
Definition str_is_empty (s : string) : bool :=
  match s with EmptyString => true | _ => false end.

(** ** Values of an index document *)

Inductive pyval :=
| PNone
| PInt (z : Z)
| PStr (s : string)
| PList (l : list pyval).

(** Truthiness, as [if v:] and [not v] test it. *)
Definition truthy (v : pyval) : bool :=
  match v with
  | PNone => false
  | PInt z => negb (z =? 0)%Z
  | PStr s => negb (str_is_empty s)
  | PList l => match l with [] => false | _ => true end
  end.

Fixpoint chars (s : string) : list string :=
  match s with
  | EmptyString => []
  | String c s' => String c EmptyString :: chars s'
  end.

(** [for x in v]: lists yield their items, strings their characters. *)
Definition py_iter (v : pyval) : result (list pyval) :=
  match v with
  | PList l => Ok l
  | PStr s => Ok (PStr <$> chars s)
  | PNone | PInt _ => Raise TypeError
  end.

(** [len(v)] *)
Definition py_len (v : pyval) : result nat :=
  match v with
  | PList l => Ok (length l)
  | PStr s => Ok (String.length s)
  | PNone | PInt _ => Raise TypeError
  end.

(** [d.get(k, default)] *)
Definition dict_get {V} (d : gmap string V) (k : string) (dflt : V) : V :=
  default dflt (d !! k).

(** [k in d] *)
Definition dict_contains {V} (d : gmap string V) (k : string) : bool :=
  match d !! k with Some _ => true | None => false end.

(** [d[k]] *)
Definition dict_item {V} (d : gmap string V) (k : string) : result V :=
  match d !! k with Some v => Ok v | None => Raise (KeyError k) end.

(** ** Library functions the code calls

    [hash] on strings, [uuid.UUID], [int] and [str.format] belong to the
    Python runtime; the embedding takes them as an interface. *)

Record UUID := mkUUID { uuid_int : N }.

Class PyLib := {
  hash : string -> Z;
  UUID_of_str : string -> result UUID;
  UUID_str : UUID -> string;
  int_of_str : string -> result Z;
  format_012d : Z -> string
}.

(** ** Configuration ([config.py]) *)

Definition JOBS_INDEX : string := "jobs".
Definition CANDIDATES_INDEX : string := "candidates".
Definition MIN_MATCHING_SKILLS : nat := 2.

Definition VALID_SENIORITIES : list string :=
  ["none"; "junior"; "midlevel"; "senior"; "lead"; "principal"].

Definition FILTER_WEIGHT (filter : string) : Q :=
  if String.eqb filter "salary_match" then 1.0%Q
  else if String.eqb filter "top_skill_match" then 2.0%Q
  else if String.eqb filter "seniority_match" then 1.5%Q
  else 0%Q.

(** ** Value objects ([domain/value_objects.py]) *)

Inductive SeniorityLevel := NONE | JUNIOR | MIDLEVEL | SENIOR | LEAD | PRINCIPAL.

Definition SeniorityLevel_value (l : SeniorityLevel) : string :=
  match l with
  | NONE => "none"
  | JUNIOR => "junior"
  | MIDLEVEL => "midlevel"
  | SENIOR => "senior"
  | LEAD => "lead"
  | PRINCIPAL => "principal"
  end.

(** The members in definition order, as iterating the enumeration gives them. *)
Definition SeniorityLevel_members : list SeniorityLevel :=
  [NONE; JUNIOR; MIDLEVEL; SENIOR; LEAD; PRINCIPAL].

(** [SeniorityLevel(s)]: lookup by value, [None] standing for the ValueError. *)
Definition SeniorityLevel_of_value (s : string) : option SeniorityLevel :=
  List.find (fun l => String.eqb (SeniorityLevel_value l) s) SeniorityLevel_members.

Definition SeniorityLevel_eqb (a b : SeniorityLevel) : bool :=
  String.eqb (SeniorityLevel_value a) (SeniorityLevel_value b).

Record Seniority := mkSeniority { level : SeniorityLevel }.

Module SeniorityOps.

Definition invalid_message (seniority_str : string) : string :=
  "Invalid seniority level: " ++ seniority_str ++ ". Valid levels are: "
  ++ str_join ", " (SeniorityLevel_value <$> SeniorityLevel_members).

Definition from_string (seniority_str : string) : result Seniority :=
  match SeniorityLevel_of_value (str_lower seniority_str) with
  | Some l => Ok (mkSeniority l)
  | None => Raise (ValueError (invalid_message seniority_str))
  end.

(** [__str__] *)
Definition to_str (s : Seniority) : string := SeniorityLevel_value (level s).

(** The equality a frozen dataclass generates: field by field. *)
Definition eqb (a b : Seniority) : bool := SeniorityLevel_eqb (level a) (level b).

End SeniorityOps.

Record Salary := mkSalary { value : Z }.

(** [Salary(v)]: the constructor followed by [__post_init__]. *)
Definition Salary_new (v : Z) : result Salary :=
  if (v <? 0)%Z then Raise (ValueError "Salary cannot be negative")
  else Ok (mkSalary v).

Record Skill := mkSkill { name : string }.

(** [Skill(name=s)]: [__post_init__] strips the name, then rejects an empty one. *)
Definition Skill_new (s : string) : result Skill :=
  let stripped := str_strip s in
  if str_is_empty stripped then Raise (ValueError "Skill name cannot be empty")
  else Ok (mkSkill stripped).

Module SkillOps.

(** [__str__] *)
Definition to_str (s : Skill) : string := name s.

(** [__hash__] *)
Definition hash_ `{PyLib} (s : Skill) : Z := hash (str_lower (name s)).

(** [__eq__], between two skills. *)
Definition eqb (a b : Skill) : bool :=
  String.eqb (str_lower (name a)) (str_lower (name b)).

End SkillOps.

(** ** Python sets of skills

    [set(xs)] keeps one element per class of [Skill.__eq__] (hashing agrees
    with it); only the size of a set is ever observed. *)

Definition skill_mem (x : Skill) (xs : list Skill) : bool :=
  existsb (SkillOps.eqb x) xs.

(** [s.add(x)] *)
Definition set_insert (acc : list Skill) (x : Skill) : list Skill :=
  if skill_mem x acc then acc else acc ++ [x].

(** [set(xs)], built by successive insertion. *)
Definition skill_set (xs : list Skill) : list Skill :=
  fold_left set_insert xs [].

(** [a.intersection(b)] *)
Definition set_intersection (a b : list Skill) : list Skill :=
  List.filter (fun x => skill_mem x b) a.

(** [len(m) / len(n)]: true division of two lengths. *)
Definition len_div (m n : nat) : Q :=
  (inject_Z (Z.of_nat m) / inject_Z (Z.of_nat n))%Q.

Definition list_is_empty {A} (l : list A) : bool :=
  match l with [] => true | _ => false end.

(** ** Entities ([domain/models.py]) *)

Module Job.

Record t := mk {
  id : UUID;
  top_skills : list Skill;
  other_skills : list Skill;
  seniorities : list Seniority;
  max_salary : option Salary
}.

Definition matches_candidate_salary (self : t)
    (candidate_salary_expectation : option Salary) : bool :=
  match max_salary self, candidate_salary_expectation with
  | Some mine, Some theirs => (value theirs <=? value mine)%Z
  | _, _ => false
  end.

Definition matches_candidate_seniority (self : t)
    (candidate_seniority : option Seniority) : bool :=
  match seniorities self, candidate_seniority with
  | [], _ => false
  | _, None => false
  | sens, Some s => existsb (SeniorityOps.eqb s) sens
  end.

Definition skill_match_score (self : t) (candidate_skills : list Skill) : Q :=
  if list_is_empty (top_skills self) || list_is_empty candidate_skills then 0.0%Q
  else
    let matching_skills :=
      set_intersection (skill_set (top_skills self)) (skill_set candidate_skills) in
    len_div (length matching_skills) (length (top_skills self)).

End Job.

Module Candidate.

Record t := mk {
  id : UUID;
  top_skills : list Skill;
  other_skills : list Skill;
  seniority : option Seniority;
  salary_expectation : option Salary
}.

Definition matches_job_salary (self : t) (job_max_salary : option Salary) : bool :=
  match salary_expectation self, job_max_salary with
  | Some mine, Some theirs => (value mine <=? value theirs)%Z
  | _, _ => false
  end.

Definition matches_job_seniority (self : t) (job_seniorities : list Seniority) : bool :=
  match seniority self, job_seniorities with
  | None, _ => false
  | _, [] => false
  | Some s, sens => existsb (SeniorityOps.eqb s) sens
  end.

Definition skill_match_score (self : t) (job_top_skills : list Skill) : Q :=
  if list_is_empty job_top_skills || list_is_empty (top_skills self) then 0.0%Q
  else
    let all_candidate_skills := skill_set (top_skills self ++ other_skills self) in
    let matching_skills :=
      set_intersection (skill_set job_top_skills) all_candidate_skills in
    len_div (length matching_skills) (length job_top_skills).

End Candidate.

(** ** The weighted scorer ([domain/services.py]) *)

Definition MatchScore := Q.

(** [sum(xs)] over floats, starting from 0. *)
Definition py_sum (xs : list Q) : Q := fold_left Qplus xs 0%Q.

(** [zip(xs, ys)] stops at the shorter list. *)
Fixpoint py_zip {A B} (xs : list A) (ys : list B) : list (A * B) :=
  match xs, ys with
  | x :: xs', y :: ys' => (x, y) :: py_zip xs' ys'
  | _, _ => []
  end.

(** The repository ports ([domain/repositories.py]). *)

Module JobRepository.
Record t := mk {
  get_by_id : string -> result (option Job.t);
  find_matches_for_candidate :
    string -> gmap string bool -> result (list (string * MatchScore))
}.
End JobRepository.

Module CandidateRepository.
Record t := mk {
  get_by_id : string -> result (option Candidate.t);
  find_matches_for_job :
    string -> gmap string bool -> result (list (string * MatchScore))
}.
End CandidateRepository.

Module MatchingService.

(** The two accumulators ([score_components], [weights]) are threaded
    through the three guarded blocks in source order. *)
Definition calculate_job_candidate_match
    (job : Job.t) (candidate : Candidate.t) (filters : gmap string bool) : MatchScore :=
  let score_components : list Q := [] in
  let weights : list Q := [] in
  let '(score_components, weights) :=
    if dict_get filters "top_skill_match" false then
      let skill_score := Job.skill_match_score job (Candidate.top_skills candidate) in
      (score_components ++ [skill_score], weights ++ [2.0%Q])
    else (score_components, weights) in
  let '(score_components, weights) :=
    if dict_get filters "seniority_match" false
       && Job.matches_candidate_seniority job (Candidate.seniority candidate) then
      (score_components ++ [1.0%Q], weights ++ [1.5%Q])
    else (score_components, weights) in
  let '(score_components, weights) :=
    if dict_get filters "salary_match" false
       && Job.matches_candidate_salary job (Candidate.salary_expectation candidate) then
      (score_components ++ [1.0%Q], weights ++ [1.0%Q])
    else (score_components, weights) in
  if list_is_empty score_components then 0.0%Q
  else
    let total_weight := py_sum weights in
    let weighted_score :=
      (py_sum ((fun sw => fst sw * snd sw)%Q <$> py_zip score_components weights)
       / total_weight)%Q in
    weighted_score.

Definition find_matching_jobs_for_candidate
    (candidate_repository : CandidateRepository.t) (job_repository : JobRepository.t)
    (candidate_id : string) (filters : gmap string bool)
  : result (list (string * MatchScore)) :=
  candidate ← CandidateRepository.get_by_id candidate_repository candidate_id;
  match candidate with
  | None => Raise (ValueError ("Candidate with ID " ++ candidate_id ++ " not found"))
  | Some _ =>
      JobRepository.find_matches_for_candidate job_repository candidate_id filters
  end.

Definition find_matching_candidates_for_job
    (job_repository : JobRepository.t) (candidate_repository : CandidateRepository.t)
    (job_id : string) (filters : gmap string bool)
  : result (list (string * MatchScore)) :=
  job ← JobRepository.get_by_id job_repository job_id;
  match job with
  | None => Raise (ValueError ("Job with ID " ++ job_id ++ " not found"))
  | Some _ =>
      CandidateRepository.find_matches_for_job candidate_repository job_id filters
  end.

End MatchingService.

(** ** Mappers ([infrastructure/mappers.py]) *)

(** Constructors applied to an untyped document value.  [Skill(name=v)]
    calls [v.strip()], [Salary(v)] compares [v < 0] and
    [Seniority.from_string(v)] calls [v.lower()]; on a value of another type
    the first raises AttributeError, the second TypeError, the third
    AttributeError. *)
Definition Skill_of_value (v : pyval) : result Skill :=
  match v with
  | PStr s => Skill_new s
  | PNone | PInt _ | PList _ => Raise AttributeError
  end.

Definition Salary_of_value (v : pyval) : result Salary :=
  match v with
  | PInt z => Salary_new z
  | PNone | PStr _ | PList _ => Raise TypeError
  end.

Definition Seniority_from_value (v : pyval) : result Seniority :=
  match v with
  | PStr s => SeniorityOps.from_string s
  | PNone | PInt _ | PList _ => Raise AttributeError
  end.

(** [[Skill(name=skill) for skill in doc.get(key, [])]] *)
Definition skills_field (doc : gmap string pyval) (key : string) : result (list Skill) :=
  items ← py_iter (dict_get doc key (PList []));
  comprehension Skill_of_value items.

(** The loop that appends each decoded seniority and passes over a
    ValueError; any other exception leaves the loop. *)
Fixpoint seniorities_loop (items : list pyval) (seniorities : list Seniority)
  : result (list Seniority) :=
  match items with
  | [] => Ok seniorities
  | seniority_str :: rest =>
      match Seniority_from_value seniority_str with
      | Ok s => seniorities_loop rest (seniorities ++ [s])
      | Raise (ValueError _) => seniorities_loop rest seniorities
      | Raise e => Raise e
      end
  end.

(** [Salary(doc[key]) if key in doc else None] *)
Definition salary_field (doc : gmap string pyval) (key : string) : result (option Salary) :=
  if dict_contains doc key then
    v ← dict_item doc key; s ← Salary_of_value v; Ok (Some s)
  else Ok None.

(** [UUID(doc_id)], and on a ValueError the UUID made of the decimal id. *)
Definition uuid_of_doc_id `{PyLib} (doc_id : string) : result UUID :=
  match UUID_of_str doc_id with
  | Ok u => Ok u
  | Raise (ValueError _) =>
      n ← int_of_str doc_id;
      UUID_of_str ("00000000-0000-0000-0000-" ++ format_012d n)
  | Raise e => Raise e
  end.

Definition skill_strs (skills : list Skill) : pyval :=
  PList ((fun skill => PStr (SkillOps.to_str skill)) <$> skills).

Module JobMapper.

Definition to_domain `{PyLib} (doc_id : string) (doc : gmap string pyval) : result Job.t :=
  top_skills ← skills_field doc "top_skills";
  other_skills ← skills_field doc "other_skills";
  items ← py_iter (dict_get doc "seniorities" (PList []));
  seniorities ← seniorities_loop items [];
  max_salary ← salary_field doc "max_salary";
  uuid_id ← uuid_of_doc_id doc_id;
  Ok (Job.mk uuid_id top_skills other_skills seniorities max_salary).

Definition to_document (job : Job.t) : gmap string pyval :=
  <["max_salary" :=
      match Job.max_salary job with Some s => PInt (value s) | None => PNone end]>
  (<["seniorities" :=
      PList ((fun s => PStr (SeniorityOps.to_str s)) <$> Job.seniorities job)]>
  (<["other_skills" := skill_strs (Job.other_skills job)]>
  (<["top_skills" := skill_strs (Job.top_skills job)]> ∅))).

End JobMapper.

Module CandidateMapper.

(** [seniority = None], then the guarded attempt to decode [doc['seniority']]. *)
Definition seniority_field (doc : gmap string pyval) : result (option Seniority) :=
  if dict_contains doc "seniority" then
    v ← dict_item doc "seniority";
    match Seniority_from_value v with
    | Ok s => Ok (Some s)
    | Raise (ValueError _) => Ok None
    | Raise e => Raise e
    end
  else Ok None.

Definition to_domain `{PyLib} (doc_id : string) (doc : gmap string pyval)
  : result Candidate.t :=
  top_skills ← skills_field doc "top_skills";
  other_skills ← skills_field doc "other_skills";
  seniority ← seniority_field doc;
  salary_expectation ← salary_field doc "salary_expectation";
  uuid_id ← uuid_of_doc_id doc_id;
  Ok (Candidate.mk uuid_id top_skills other_skills seniority salary_expectation).

Definition to_document (candidate : Candidate.t) : gmap string pyval :=
  <["salary_expectation" :=
      match Candidate.salary_expectation candidate with
      | Some s => PInt (value s)
      | None => PNone
      end]>
  (<["seniority" :=
      match Candidate.seniority candidate with
      | Some s => PStr (SeniorityOps.to_str s)
      | None => PNone
      end]>
  (<["other_skills" := skill_strs (Candidate.other_skills candidate)]>
  (<["top_skills" := skill_strs (Candidate.top_skills candidate)]> ∅))).

End CandidateMapper.

(** ** Search queries and the index client *)

Inductive range_op := Gte | Lte.

(** One entry of the ["should"] list.  A terms clause carries its own
    ["minimum_should_match"] when the code sets one. *)
Inductive clause :=
| RangeClause (field : string) (op : range_op) (bound : pyval)
| TermsClause (field : string) (terms : pyval) (boost : Q)
              (clause_minimum_should_match : option nat)
| TermClause (field : string) (term : pyval) (boost : Q).

Record bool_query := mkQuery {
  should : list clause;
  minimum_should_match : nat
}.

Record hit := mkHit { hit_id : string; hit_score : Q }.

(** The wrapper of [infrastructure/elasticsearch_client.py] as the
    repositories see it: a fetch that yields the source or [None], and a
    search that yields the hits. *)
Record ElasticsearchClient := {
  get_document : string -> string -> option (gmap string pyval);
  search : string -> bool_query -> list hit
}.

(** [not d] for a dict: true of the empty dict. *)
Definition dict_is_empty {V} (d : gmap string V) : bool := (size d =? 0)%nat.

Definition hits_to_matches (hits : list hit) : list (string * MatchScore) :=
  (fun h => (hit_id h, hit_score h)) <$> hits.

(** ** Elasticsearch repositories ([infrastructure/repositories.py]) *)

(** The two [get_by_id] methods come first: each repository fetches its
    source entity through the other one's [get_by_id].  [if not doc] passes
    over a missing document and an empty one alike. *)
Definition job_get_by_id `{PyLib} (es_client : ElasticsearchClient) (job_id : string)
  : result (option Job.t) :=
  match get_document es_client JOBS_INDEX job_id with
  | None => Ok None
  | Some doc =>
      if dict_is_empty doc then Ok None
      else job ← JobMapper.to_domain job_id doc; Ok (Some job)
  end.

Definition candidate_get_by_id `{PyLib} (es_client : ElasticsearchClient)
    (candidate_id : string) : result (option Candidate.t) :=
  match get_document es_client CANDIDATES_INDEX candidate_id with
  | None => Ok None
  | Some doc =>
      if dict_is_empty doc then Ok None
      else candidate ← CandidateMapper.to_domain candidate_id doc; Ok (Some candidate)
  end.

Module ElasticsearchJobRepository.

Definition get_by_id `{PyLib} := job_get_by_id.

(** The ["should"] list that [find_matches_for_candidate] builds from the
    candidate, one guarded block per filter, in source order. *)
Definition should_queries (candidate : Candidate.t) (filters : gmap string bool)
  : list clause :=
  let should_queries : list clause := [] in
  let should_queries :=
    if dict_get filters "salary_match" false then
      match Candidate.salary_expectation candidate with
      | Some salary_expectation =>
          should_queries ++ [RangeClause "max_salary" Gte (PInt (value salary_expectation))]
      | None => should_queries
      end
    else should_queries in
  let should_queries :=
    if dict_get filters "top_skill_match" false then
      if list_is_empty (Candidate.top_skills candidate) then should_queries
      else
        let top_skills := SkillOps.to_str <$> Candidate.top_skills candidate in
        let min_should_match := Nat.min (length top_skills) MIN_MATCHING_SKILLS in
        should_queries ++
          [TermsClause "top_skills" (PList (PStr <$> top_skills))
                       (FILTER_WEIGHT "top_skill_match") (Some min_should_match)]
    else should_queries in
  let should_queries :=
    if dict_get filters "seniority_match" false then
      match Candidate.seniority candidate with
      | Some seniority =>
          should_queries ++
            [TermClause "seniorities" (PStr (SeniorityOps.to_str seniority))
                        (FILTER_WEIGHT "seniority_match")]
      | None => should_queries
      end
    else should_queries in
  should_queries.

Definition find_matches_for_candidate `{PyLib} (es_client : ElasticsearchClient)
    (candidate_id : string) (filters : gmap string bool)
  : result (list (string * MatchScore)) :=
  candidate ← candidate_get_by_id es_client candidate_id;
  match candidate with
  | None => Raise (ValueError ("Candidate with ID " ++ candidate_id ++ " not found"))
  | Some candidate =>
      let should_queries := should_queries candidate filters in
      if list_is_empty should_queries then Ok []
      else
        let query := mkQuery should_queries 1 in
        let hits := search es_client JOBS_INDEX query in
        Ok (hits_to_matches hits)
  end.

Definition make `{PyLib} (es_client : ElasticsearchClient) : JobRepository.t :=
  JobRepository.mk (get_by_id es_client) (find_matches_for_candidate es_client).

End ElasticsearchJobRepository.

Module ElasticsearchCandidateRepository.

Definition get_by_id `{PyLib} := candidate_get_by_id.

(** The ["should"] list that [find_matches_for_job] builds from the job. *)
Definition should_queries (job : Job.t) (filters : gmap string bool) : list clause :=
  let should_queries : list clause := [] in
  let should_queries :=
    if dict_get filters "salary_match" false then
      match Job.max_salary job with
      | Some max_salary =>
          should_queries ++ [RangeClause "salary_expectation" Lte (PInt (value max_salary))]
      | None => should_queries
      end
    else should_queries in
  let should_queries :=
    if dict_get filters "top_skill_match" false then
      if list_is_empty (Job.top_skills job) then should_queries
      else
        let top_skills := SkillOps.to_str <$> Job.top_skills job in
        let min_should_match := Nat.min (length top_skills) MIN_MATCHING_SKILLS in
        should_queries ++
          [TermsClause "top_skills" (PList (PStr <$> top_skills))
                       (FILTER_WEIGHT "top_skill_match") (Some min_should_match)]
    else should_queries in
  let should_queries :=
    if dict_get filters "seniority_match" false then
      if list_is_empty (Job.seniorities job) then should_queries
      else
        let job_seniorities := SeniorityOps.to_str <$> Job.seniorities job in
        should_queries ++
          [TermsClause "seniority" (PList (PStr <$> job_seniorities))
                       (FILTER_WEIGHT "seniority_match") None]
    else should_queries in
  should_queries.

Definition find_matches_for_job `{PyLib} (es_client : ElasticsearchClient)
    (job_id : string) (filters : gmap string bool)
  : result (list (string * MatchScore)) :=
  job ← job_get_by_id es_client job_id;
  match job with
  | None => Raise (ValueError ("Job with ID " ++ job_id ++ " not found"))
  | Some job =>
      let should_queries := should_queries job filters in
      if list_is_empty should_queries then Ok []
      else
        let query := mkQuery should_queries 1 in
        let hits := search es_client CANDIDATES_INDEX query in
        Ok (hits_to_matches hits)
  end.

Definition make `{PyLib} (es_client : ElasticsearchClient) : CandidateRepository.t :=
  CandidateRepository.mk (get_by_id es_client) (find_matches_for_job es_client).

End ElasticsearchCandidateRepository.

(** ** The application service ([application/dto.py], [application/services.py]) *)

Record MatchDTO := mkMatchDTO { match_id : string; relevance_score : Q }.

Module MatchFiltersDTO.

Record t := mk {
  salary_match : bool;
  top_skill_match : bool;
  seniority_match : bool
}.

Definition from_dict (data : gmap string bool) : t :=
  mk (dict_get data "salary_match" false)
     (dict_get data "top_skill_match" false)
     (dict_get data "seniority_match" false).

End MatchFiltersDTO.

(** [d.values()] *)
Definition dict_values {V} (d : gmap string V) : list V := (map_to_list d).*2.

Module MatchingApplicationService.

Record t := mk {
  job_repository : JobRepository.t;
  candidate_repository : CandidateRepository.t
}.

Definition find_matches (self : t) (doc_id doc_type : string) (filters : MatchFiltersDTO.t)
  : result (list MatchDTO) :=
  let filters_dict : gmap string bool :=
    <["seniority_match" := MatchFiltersDTO.seniority_match filters]>
    (<["top_skill_match" := MatchFiltersDTO.top_skill_match filters]>
    (<["salary_match" := MatchFiltersDTO.salary_match filters]> ∅)) in
  if forallb negb (dict_values filters_dict) then
    Raise (ValueError "At least one filter must be enabled")
  else
    matches ←
      ((if String.eqb doc_type "job" then
         MatchingService.find_matching_candidates_for_job
           (job_repository self) (candidate_repository self) doc_id filters_dict
       else if String.eqb doc_type "candidate" then
         MatchingService.find_matching_jobs_for_candidate
           (candidate_repository self) (job_repository self) doc_id filters_dict
       else Raise (ValueError ("Invalid document type: " ++ doc_type)))
       : result (list (string * MatchScore)));
    Ok (List.map (fun m : string * MatchScore => mkMatchDTO (fst m) (snd m)) matches).

End MatchingApplicationService.

(** The wiring of [infrastructure/service_factory.py]. *)
Definition create_matching_application_service `{PyLib} (es_client : ElasticsearchClient)
  : MatchingApplicationService.t :=
  MatchingApplicationService.mk
    (ElasticsearchJobRepository.make es_client)
    (ElasticsearchCandidateRepository.make es_client).

(** ** The stand-alone search service ([infrastructure/elasticsearch_service.py]) *)

Definition is_lower (c : ascii) : bool :=
  let n := nat_of_ascii c in (97 <=? n)%nat && (n <=? 122)%nat.

Definition ascii_upper (c : ascii) : ascii :=
  if is_lower c then ascii_of_nat (nat_of_ascii c - 32) else c.

(** [s.capitalize()] *)
Definition str_capitalize (s : string) : string :=
  match s with
  | EmptyString => EmptyString
  | String c s' => String (ascii_upper c) (str_lower s')
  end.

(** [str(e)] of the KeyError raised by a missing key: the key in quotes. *)
Definition KeyError_str (key : string) : string := "'" ++ key ++ "'".

(** The client object the service holds: the cluster health probe, the
    fetch (the source of the stored document, [None] when the reply has no
    ['_source']) and the search bounded by [size]. *)
Record Elasticsearch := {
  cluster_health : result unit;
  es_get : string -> string -> result (option (gmap string pyval));
  es_search : string -> bool_query -> nat -> result (list hit)
}.

Module ElasticsearchService.

Definition check_connection (es : Elasticsearch) : bool :=
  is_ok (cluster_health es).

Definition get_document (es : Elasticsearch) (doc_id doc_type : string)
  : result (gmap string pyval) :=
  if negb (check_connection es) then
    Raise (ConnectionError "Elasticsearch service is not available")
  else
    let index := if String.eqb doc_type "job" then JOBS_INDEX else CANDIDATES_INDEX in
    match es_get es index doc_id with
    | Ok (Some source) => Ok source
    | Ok None =>
        Raise (ValueError ("Invalid document format for " ++ doc_type
                           ++ " with ID " ++ doc_id))
    | Raise NotFoundError =>
        Raise (ValueError (str_capitalize doc_type ++ " with ID " ++ doc_id
                           ++ " not found"))
    | Raise e => Raise e
    end.

Definition _build_salary_query (source_doc : gmap string pyval) (doc_type : string)
  : result clause :=
  let attempt :=
    if String.eqb doc_type "job" then
      bound ← dict_item source_doc "max_salary";
      Ok (RangeClause "salary_expectation" Lte bound)
    else
      bound ← dict_item source_doc "salary_expectation";
      Ok (RangeClause "max_salary" Gte bound) in
  match attempt with
  | Raise (KeyError k) =>
      Raise (ValueError ("Missing required salary field: " ++ KeyError_str k))
  | r => r
  end.

Definition _build_skills_query (source_doc : gmap string pyval) : result clause :=
  let top_skills := dict_get source_doc "top_skills" (PList []) in
  if negb (truthy top_skills) then
    Raise (ValueError "Source document has no top skills")
  else
    n ← py_len top_skills;
    let min_should_match := Nat.min n MIN_MATCHING_SKILLS in
    Ok (TermsClause "top_skills" top_skills (FILTER_WEIGHT "top_skill_match")
                    (Some min_should_match)).

Definition _build_seniority_query (source_doc : gmap string pyval) (doc_type : string)
  : result clause :=
  let attempt :=
    if String.eqb doc_type "job" then
      let seniorities := dict_get source_doc "seniorities" (PList []) in
      if negb (truthy seniorities) then
        Raise (ValueError "Job document has no seniorities defined")
      else
        Ok (TermsClause "seniority" seniorities (FILTER_WEIGHT "seniority_match") None)
    else
      let seniority := dict_get source_doc "seniority" PNone in
      if negb (truthy seniority) then
        Raise (ValueError "Candidate document has no seniority defined")
      else
        Ok (TermClause "seniorities" seniority (FILTER_WEIGHT "seniority_match")) in
  match attempt with
  | Raise (KeyError k) =>
      Raise (ValueError ("Missing required seniority field: " ++ KeyError_str k))
  | r => r
  end.

(** One guarded [should_queries.append(...)]. *)
Definition append_if (enabled : bool) (build : result clause) (should_queries : list clause)
  : result (list clause) :=
  if enabled then q ← build; Ok (should_queries ++ [q]) else Ok should_queries.

Definition find_matches (es : Elasticsearch) (doc_id doc_type : string)
    (filters : gmap string bool) : result (list MatchDTO) :=
  if negb (check_connection es) then
    Raise (ConnectionError "Elasticsearch service is not available")
  else
    let target_index :=
      if String.eqb doc_type "job" then CANDIDATES_INDEX else JOBS_INDEX in
    source_doc ← get_document es doc_id doc_type;
    should_queries ←
      append_if (dict_get filters "salary_match" false)
                (_build_salary_query source_doc doc_type) [];
    should_queries ←
      append_if (dict_get filters "top_skill_match" false)
                (_build_skills_query source_doc) should_queries;
    should_queries ←
      append_if (dict_get filters "seniority_match" false)
                (_build_seniority_query source_doc doc_type) should_queries;
    if list_is_empty should_queries then
      Raise (ValueError "At least one filter must be enabled")
    else
      let query := mkQuery should_queries 1 in
      hits ← es_search es target_index query 100;
      Ok (List.map (fun h => mkMatchDTO (hit_id h) (hit_score h)) hits).

End ElasticsearchService.

(** ** The client wrapper ([infrastructure/elasticsearch_client.py])

    The state a constructed wrapper is in: the library client it holds, if
    any, and the mock-mode flag.  The connection attempts that lead to this
    state are not modelled. *)

Record ElasticsearchClientState := mkClientState {
  _client : option Elasticsearch;
  _mock_mode : bool
}.

Module ElasticsearchClientImpl.

Definition mock_job : gmap string pyval :=
  <["max_salary" := PInt 85000]>
  (<["seniorities" := PList [PStr "midlevel"; PStr "senior"]]>
  (<["other_skills" := PList [PStr "Docker"; PStr "Kubernetes"; PStr "Git"]]>
  (<["top_skills" := PList [PStr "Python"; PStr "AWS"; PStr "Machine Learning"]]> ∅))).

Definition mock_candidate : gmap string pyval :=
  <["salary_expectation" := PInt 80000]>
  (<["seniority" := PStr "senior"]>
  (<["other_skills" := PList [PStr "React"; PStr "Node.js"]]>
  (<["top_skills" := PList [PStr "Python"; PStr "AWS"; PStr "TypeScript"]]> ∅))).

Definition mock_hits : list hit :=
  [mkHit "2" 0.95; mkHit "5" 0.87; mkHit "7" 0.76].

Definition get_document (self : ElasticsearchClientState) (index doc_id : string)
  : option (gmap string pyval) :=
  if _mock_mode self then
    if String.eqb index "jobs" && String.eqb doc_id "1" then Some mock_job
    else if String.eqb index "candidates" && String.eqb doc_id "1" then Some mock_candidate
    else None
  else
    match _client self with
    | None => None
    | Some client =>
        match es_get client index doc_id with
        | Ok (Some source) => Some source
        | Ok None => None
        | Raise _ => None
        end
    end.

Definition search (self : ElasticsearchClientState) (index : string) (query : bool_query)
  : list hit :=
  if _mock_mode self then mock_hits
  else
    match _client self with
    | None => []
    | Some client =>
        match es_search client index query 100 with
        | Ok hits => hits
        | Raise _ => []
        end
    end.

(** The wrapper as the object handed to the repositories. *)
Definition as_client (self : ElasticsearchClientState) : ElasticsearchClient :=
  Build_ElasticsearchClient (get_document self) (search self).

End ElasticsearchClientImpl.

(** ** The document service ([application/dto.py], [application/services.py]) *)

Module JobDTO.
Record t := mk {
  id : string;
  top_skills : list string;
  other_skills : list string;
  seniorities : list string;
  max_salary : option Z
}.
End JobDTO.

Module CandidateDTO.
Record t := mk {
  id : string;
  top_skills : list string;
  other_skills : list string;
  seniority : option string;
  salary_expectation : option Z
}.
End CandidateDTO.

Module DocumentService.

Record t := mk {
  job_repository : JobRepository.t;
  candidate_repository : CandidateRepository.t
}.

Definition get_job `{PyLib} (self : t) (job_id : string) : result (option JobDTO.t) :=
  job ← JobRepository.get_by_id (job_repository self) job_id;
  match job with
  | None => Ok None
  | Some job =>
      Ok (Some (JobDTO.mk
        (UUID_str (Job.id job))
        (SkillOps.to_str <$> Job.top_skills job)
        (SkillOps.to_str <$> Job.other_skills job)
        (SeniorityOps.to_str <$> Job.seniorities job)
        (match Job.max_salary job with Some s => Some (value s) | None => None end)))
  end.

Definition get_candidate `{PyLib} (self : t) (candidate_id : string)
  : result (option CandidateDTO.t) :=
  candidate ← CandidateRepository.get_by_id (candidate_repository self) candidate_id;
  match candidate with
  | None => Ok None
  | Some candidate =>
      Ok (Some (CandidateDTO.mk
        (UUID_str (Candidate.id candidate))
        (SkillOps.to_str <$> Candidate.top_skills candidate)
        (SkillOps.to_str <$> Candidate.other_skills candidate)
        (match Candidate.seniority candidate with
         | Some s => Some (SeniorityOps.to_str s)
         | None => None
         end)
        (match Candidate.salary_expectation candidate with
         | Some s => Some (value s)
         | None => None
         end)))
  end.

End DocumentService.

Definition create_document_service `{PyLib} (es_client : ElasticsearchClient)
  : DocumentService.t :=
  DocumentService.mk
    (ElasticsearchJobRepository.make es_client)
    (ElasticsearchCandidateRepository.make es_client).

(** ** The routes ([routes/matching_routes.py], [routes/document_routes.py])

    A handler is modelled from the point where the request schema has been
    applied: [schema.load] either yields the parameters or raises a
    validation error with its messages.  [jsonify] of a value is the body
    built from it; the status is 200 unless the handler gives another. *)

Inductive loaded (A : Type) :=
| Loaded (params : A)
| ValidationError (messages : string).
Arguments Loaded {A} params.
Arguments ValidationError {A} messages.

Record MatchingQuery := mkMatchingQuery {
  mq_id : string;
  mq_doc_type : string;
  mq_filters : gmap string bool
}.

Record DocumentQuery := mkDocumentQuery {
  dq_id : string;
  dq_doc_type : string
}.

Inductive response_body :=
| ErrorBody (error : string)
| ValidationErrorBody (details : string)
| MatchesBody (matches : list MatchDTO)
| JobBody (document : JobDTO.t)
| CandidateBody (document : CandidateDTO.t).

Definition response : Type := response_body * nat.

Module matching_routes.

Definition find_matches (matching_service : MatchingApplicationService.t)
    (request : loaded MatchingQuery) : response :=
  match request with
  | ValidationError messages => (ValidationErrorBody messages, 400)
  | Loaded data =>
      let filters := MatchFiltersDTO.from_dict (mq_filters data) in
      match MatchingApplicationService.find_matches matching_service
              (mq_id data) (mq_doc_type data) filters with
      | Ok matches => (MatchesBody matches, 200)
      | Raise (ValueError msg) => (ErrorBody msg, 400)
      | Raise _ => (ErrorBody "Internal server error", 500)
      end
  end.

End matching_routes.

Module document_routes.

Definition get_document `{PyLib} (document_service : DocumentService.t)
    (request : loaded DocumentQuery) : response :=
  match request with
  | ValidationError messages => (ValidationErrorBody messages, 400)
  | Loaded params =>
      let doc_id := dq_id params in
      let doc_type := dq_doc_type params in
      let outcome : result response :=
        if String.eqb doc_type "job" then
          document ← DocumentService.get_job document_service doc_id;
          match document with
          | Some document => Ok (JobBody document, 200)
          | None => Ok (ErrorBody ("Job with ID " ++ doc_id ++ " not found"), 404)
          end
        else if String.eqb doc_type "candidate" then
          document ← DocumentService.get_candidate document_service doc_id;
          match document with
          | Some document => Ok (CandidateBody document, 200)
          | None => Ok (ErrorBody ("Candidate with ID " ++ doc_id ++ " not found"), 404)
          end
        else Ok (ErrorBody ("Invalid document type: " ++ doc_type), 400) in
      match outcome with
      | Ok r => r
      | Raise (ValueError msg) => (ErrorBody msg, 404)
      | Raise _ => (ErrorBody "Internal server error", 500)
      end
  end.

End document_routes.

(** ** A reference runtime

    An instance of the runtime interface for closed examples: canonical
    hexadecimal UUIDs (hyphens ignored, 32 digits), decimal integers and
    zero-padded formatting. *)

Module RefLib.

Definition hex_digit (c : ascii) : option N :=
  let n := N_of_ascii c in
  if ((48 <=? n) && (n <=? 57))%N then Some (n - 48)%N
  else if ((97 <=? n) && (n <=? 102))%N then Some (n - 87)%N
  else if ((65 <=? n) && (n <=? 70))%N then Some (n - 55)%N
  else None.

Fixpoint hex_value (s : string) (acc : N) : option N :=
  match s with
  | EmptyString => Some acc
  | String c s' =>
      match hex_digit c with
      | Some d => hex_value s' (16 * acc + d)%N
      | None => None
      end
  end.

Fixpoint remove_hyphens (s : string) : string :=
  match s with
  | EmptyString => EmptyString
  | String c s' =>
      if Ascii.eqb c "-"%char then remove_hyphens s' else String c (remove_hyphens s')
  end.

Definition uuid_of_str (s : string) : result UUID :=
  let digits := remove_hyphens s in
  if (String.length digits =? 32)%nat then
    match hex_value digits 0%N with
    | Some n => Ok (mkUUID n)
    | None => Raise (ValueError "badly formed hexadecimal UUID string")
    end
  else Raise (ValueError "badly formed hexadecimal UUID string").

Definition hex_char (d : N) : ascii :=
  if (d <? 10)%N then ascii_of_N (48 + d) else ascii_of_N (87 + d).

Fixpoint hex_fixed (width : nat) (n : N) (acc : string) : string :=
  match width with
  | O => acc
  | S w => hex_fixed w (n / 16)%N (String (hex_char (n mod 16)%N) acc)
  end.

Definition uuid_str (u : UUID) : string :=
  let h := hex_fixed 32 (uuid_int u) "" in
  String.substring 0 8 h ++ "-" ++ String.substring 8 4 h ++ "-"
  ++ String.substring 12 4 h ++ "-" ++ String.substring 16 4 h ++ "-"
  ++ String.substring 20 12 h.

Definition dec_digit (c : ascii) : option Z :=
  let n := Z.of_N (N_of_ascii c) in
  if ((48 <=? n) && (n <=? 57))%Z then Some (n - 48)%Z else None.

Fixpoint dec_value (s : string) (acc : Z) : option Z :=
  match s with
  | EmptyString => Some acc
  | String c s' =>
      match dec_digit c with
      | Some d => dec_value s' (10 * acc + d)%Z
      | None => None
      end
  end.

Definition int_of_str (s : string) : result Z :=
  match s with
  | EmptyString => Raise (ValueError "invalid literal for int()")
  | _ =>
      match dec_value s 0%Z with
      | Some n => Ok n
      | None => Raise (ValueError "invalid literal for int()")
      end
  end.

Fixpoint dec_fixed (width : nat) (n : Z) (acc : string) : string :=
  match width with
  | O => acc
  | S w =>
      dec_fixed w (n / 10)%Z
                (String (ascii_of_N (48 + Z.to_N (n mod 10)%Z)) acc)
  end.

Definition format_012d (n : Z) : string := dec_fixed 12 n "".

(** A stand-in for the string hash: any function of the string will do. *)
Definition hash (s : string) : Z := Z.of_nat (String.length s).

Definition lib : PyLib :=
  Build_PyLib hash uuid_of_str uuid_str int_of_str format_012d.

End RefLib.

(** * Vocabulary of the properties

    Predicates and observers the statements below are written with, the
    scoring rule in the words of the specification, and the data of the
    closed examples. *)

(** ** Strings, skills and seniorities *)

(** A string that is empty or holds white space only. *)
Fixpoint all_whitespace (s : string) : bool :=
  match s with
  | EmptyString => true
  | String c s' => isspace c && all_whitespace s'
  end.

(** No two skills of the list are equal (as [Skill.__eq__] compares them). *)
Fixpoint skills_distinct (xs : list Skill) : bool :=
  match xs with
  | [] => true
  | x :: xs' => negb (skill_mem x xs') && skills_distinct xs'
  end.

(** A skill as its constructor leaves it: building it again from its name
    gives it back. *)
Definition valid_skill (skill : Skill) : Prop := Skill_new (name skill) = Ok skill.

(** The seniorities among [strs] that name a level, in order. *)
Definition recognized_seniorities (strs : list string) : list Seniority :=
  omap (fun s => mkSeniority <$> SeniorityLevel_of_value (str_lower s)) strs.

(** ** The scoring rule of the specification *)

(** The scoring rule in the words of the specification: an enabled criterion
    yields its component and weight or is left out; the result is the
    weight-normalized average of what was produced, and 0 when nothing was. *)
Definition criterion (produced : bool) (component weight : Q) : option (Q * Q) :=
  if produced then Some (component, weight) else None.

Definition weighted_average (produced : list (Q * Q)) : Q :=
  match produced with
  | [] => 0%Q
  | _ =>
      (fold_right (fun cw acc => fst cw * snd cw + acc) 0 produced
       / fold_right (fun cw acc => snd cw + acc) 0 produced)%Q
  end.

Definition weighted_score_spec
    (skill_enabled seniority_enabled salary_enabled : bool)
    (skillMatchScore : Q) (matchesSeniority matchesSalary : bool) : Q :=
  weighted_average
    (omap (fun c => c)
       [criterion skill_enabled skillMatchScore 2;
        criterion (seniority_enabled && matchesSeniority) 1 1.5;
        criterion (salary_enabled && matchesSalary) 1 1]).

(** ** Observers of a query *)

(** The field a clause filters on. *)
Definition clause_field (c : clause) : string :=
  match c with
  | RangeClause field _ _ => field
  | TermsClause field _ _ _ => field
  | TermClause field _ _ => field
  end.

(** The clauses of a ["should"] list that filter on the given field. *)
Definition clauses_on (field : string) (should_queries : list clause) : list clause :=
  List.filter (fun c => String.eqb (clause_field c) field) should_queries.

(** [isinstance(v, int)] *)
Definition is_int (v : pyval) : bool :=
  match v with PInt _ => true | _ => false end.

(** The bound of a range clause; [None] for the other clauses. *)
Definition range_bound (c : clause) : option pyval :=
  match c with
  | RangeClause _ _ bound => Some bound
  | _ => None
  end.

(** ** Filters *)

(** The dictionary the application service builds from the filter DTO. *)
Definition filters_dict (filters : MatchFiltersDTO.t) : gmap string bool :=
  <["seniority_match" := MatchFiltersDTO.seniority_match filters]>
  (<["top_skill_match" := MatchFiltersDTO.top_skill_match filters]>
  (<["salary_match" := MatchFiltersDTO.salary_match filters]> ∅)).

(** At least one of the three filters is enabled. *)
Definition some_filter_enabled (filters : MatchFiltersDTO.t) : bool :=
  MatchFiltersDTO.salary_match filters
  || MatchFiltersDTO.top_skill_match filters
  || MatchFiltersDTO.seniority_match filters.

(** The number of enabled filters of a filter dictionary. *)
Definition enabled_count (filters : gmap string bool) : nat :=
  (if dict_get filters "salary_match" false then 1 else 0)
  + (if dict_get filters "top_skill_match" false then 1 else 0)
  + (if dict_get filters "seniority_match" false then 1 else 0).

Definition matches_to_dtos (matches : list (string * MatchScore)) : list MatchDTO :=
  List.map (fun m : string * MatchScore => mkMatchDTO (fst m) (snd m)) matches.

(** The filter dictionary with all three filters enabled. *)
Definition all_filters : gmap string bool :=
  <["seniority_match" := true]>
  (<["top_skill_match" := true]> (<["salary_match" := true]> ∅)).

(** The canned matches of mock mode. *)
Definition mock_matches : list MatchDTO :=
  [mkMatchDTO "2" 0.95; mkMatchDTO "5" 0.87; mkMatchDTO "7" 0.76].

(** ** Example data *)

(** An index for closed examples: candidate "1" and job "1" are stored
    without their salary field, and every search answers one hit. *)
Definition candidate_without_salary : gmap string pyval :=
  <["seniority" := PStr "senior"]>
  (<["top_skills" := PList [PStr "Python"; PStr "AWS"]]> ∅).

Definition job_without_salary : gmap string pyval :=
  <["seniorities" := PList [PStr "midlevel"; PStr "senior"]]>
  (<["top_skills" := PList [PStr "Python"; PStr "AWS"]]> ∅).

Definition index_without_salaries : ElasticsearchClient :=
  {| get_document := fun index doc_id =>
       if String.eqb index "candidates" && String.eqb doc_id "1"
       then Some candidate_without_salary
       else if String.eqb index "jobs" && String.eqb doc_id "1"
       then Some job_without_salary
       else None;
     search := fun _ _ => [mkHit "2" 0.95] |}.

Definition service_without_salaries : Elasticsearch :=
  {| cluster_health := Ok tt;
     es_get := fun index doc_id => Ok (get_document index_without_salaries index doc_id);
     es_search := fun index query size =>
       Ok (search index_without_salaries index query) |}.

Definition only_salary_match : gmap string bool := <["salary_match" := true]> ∅.

(** A job document with one seniority that names no level. *)
Definition job_with_a_bad_seniority : gmap string pyval :=
  <["max_salary" := PInt 85000]>
  (<["seniorities" := PList (PStr <$> ["midlevel"; "boss"; "Senior"])]>
  (<["top_skills" := PList [PStr "Python"; PStr " AWS "]]> ∅)).

(** * Properties *)

(** ** Strings and value objects *)

Lemma str_lstrip_empty s : str_lstrip s = "" <-> all_whitespace s = true.
Proof.
  induction s as [|c s IH]; simpl; [tauto|].
  destruct (isspace c); simpl; [exact IH|].
  split; discriminate.
Qed.

Lemma str_rstrip_empty s : str_rstrip s = "" <-> all_whitespace s = true.
Proof.
  induction s as [|c s IH]; simpl; [tauto|].
  destruct (str_rstrip s) eqn:E.
  - destruct (isspace c); simpl.
    + split; [intros _; now apply IH | reflexivity].
    + split; discriminate.
  - split; [discriminate|].
    intros H. apply andb_true_iff in H as [_ H].
    apply IH in H. discriminate.
Qed.

Lemma all_whitespace_lstrip s : all_whitespace (str_lstrip s) = all_whitespace s.
Proof.
  induction s as [|c s IH]; simpl; [reflexivity|].
  destruct (isspace c) eqn:E; simpl; [exact IH|].
  now rewrite E.
Qed.

Lemma str_strip_empty s : str_strip s = "" <-> all_whitespace s = true.
Proof.
  unfold str_strip. rewrite str_rstrip_empty, all_whitespace_lstrip. tauto.
Qed.

Lemma str_is_empty_true s : str_is_empty s = true <-> s = "".
Proof. destruct s; simpl; split; congruence. Qed.

Lemma SeniorityLevel_of_value_Some x l :
  SeniorityLevel_of_value x = Some l <-> x = SeniorityLevel_value l.
Proof.
  unfold SeniorityLevel_of_value. split.
  - intros H. apply List.find_some in H as [_ H].
    apply String.eqb_eq in H. congruence.
  - intros ->. destruct l; reflexivity.
Qed.

Lemma SeniorityLevel_of_value_None x :
  SeniorityLevel_of_value x = None <-> forall l, x <> SeniorityLevel_value l.
Proof.
  split.
  - intros H l ->. destruct l; discriminate.
  - intros H. destruct (SeniorityLevel_of_value x) as [l|] eqn:E; [|reflexivity].
    apply SeniorityLevel_of_value_Some in E. now destruct (H l).
Qed.

Lemma VALID_SENIORITIES_values x :
  In x VALID_SENIORITIES <-> exists l, x = SeniorityLevel_value l.
Proof.
  unfold VALID_SENIORITIES. simpl. split.
  - intros [<-|[<-|[<-|[<-|[<-|[<-|[]]]]]]];
      [exists NONE|exists JUNIOR|exists MIDLEVEL|exists SENIOR|exists LEAD|exists PRINCIPAL];
      reflexivity.
  - intros [l ->]. destruct l; simpl; tauto.
Qed.

(** C8. Construction of a value object either succeeds or fails with a
    ValueError that names the rule: [Salary(v)] fails exactly when [v < 0]
    (so [Salary(-1)] fails and [Salary(0)] succeeds); [Skill(s)] fails exactly
    when [s] is empty or white space only, and otherwise holds the stripped
    name; [Seniority.from_string(s)] fails exactly when [s], read without
    regard to letter case, is none of the recognized levels, and the message
    lists the valid values. *)
Theorem value_object_construction (v : Z) (s : string) :
  (Salary_new v = Raise (ValueError "Salary cannot be negative") <-> (v < 0)%Z) /\
  (Salary_new v = Ok (mkSalary v) <-> (0 <= v)%Z) /\
  is_ok (Salary_new (-1)) = false /\
  Salary_new 0 = Ok (mkSalary 0) /\
  (Skill_new s = Raise (ValueError "Skill name cannot be empty")
     <-> all_whitespace s = true) /\
  (Skill_new s = Ok (mkSkill (str_strip s)) <-> all_whitespace s = false) /\
  (SeniorityOps.from_string s =
     Raise (ValueError
       ("Invalid seniority level: " ++ s
        ++ ". Valid levels are: none, junior, midlevel, senior, lead, principal"))
     <-> ~ In (str_lower s) VALID_SENIORITIES) /\
  (forall l, SeniorityOps.from_string s = Ok (mkSeniority l)
     <-> str_lower s = SeniorityLevel_value l) /\
  (forall l, SeniorityOps.from_string (SeniorityLevel_value l) = Ok (mkSeniority l)).
Proof.
  repeat split; try reflexivity; try (now destruct l).
  - unfold Salary_new. destruct (Z.ltb_spec v 0); [lia|discriminate].
  - unfold Salary_new. intros H. apply Z.ltb_lt in H. now rewrite H.
  - unfold Salary_new. destruct (Z.ltb_spec v 0); [discriminate|lia].
  - unfold Salary_new. intros H. destruct (Z.ltb_spec v 0); [lia|reflexivity].
  - unfold Skill_new. destruct (str_is_empty (str_strip s)) eqn:E; [|discriminate].
    intros _. apply str_strip_empty. now apply str_is_empty_true.
  - intros H. apply str_strip_empty, str_is_empty_true in H.
    unfold Skill_new. now rewrite H.
  - unfold Skill_new. destruct (str_is_empty (str_strip s)) eqn:E; [discriminate|].
    intros _. destruct (all_whitespace s) eqn:W; [|reflexivity].
    apply str_strip_empty, str_is_empty_true in W. congruence.
  - intros H. unfold Skill_new.
    destruct (str_is_empty (str_strip s)) eqn:E; [|reflexivity].
    apply str_is_empty_true, str_strip_empty in E. congruence.
  - unfold SeniorityOps.from_string.
    destruct (SeniorityLevel_of_value (str_lower s)) as [l|] eqn:E; [discriminate|].
    intros _ Hin. apply VALID_SENIORITIES_values in Hin as [l Hl].
    pose proof (proj1 (SeniorityLevel_of_value_None _) E l). contradiction.
  - intros Hnot. unfold SeniorityOps.from_string.
    destruct (SeniorityLevel_of_value (str_lower s)) as [l|] eqn:E.
    + exfalso. apply Hnot, VALID_SENIORITIES_values. exists l.
      now apply SeniorityLevel_of_value_Some.
    + reflexivity.
  - unfold SeniorityOps.from_string.
    destruct (SeniorityLevel_of_value (str_lower s)) as [l'|] eqn:E; [|discriminate].
    intros [= <-]. now apply SeniorityLevel_of_value_Some.
  - intros H. apply SeniorityLevel_of_value_Some in H.
    unfold SeniorityOps.from_string. now rewrite H.
Qed.

Lemma Skill_new_Ok s a : Skill_new s = Ok a -> name a = str_strip s.
Proof.
  unfold Skill_new. destruct (str_is_empty (str_strip s)); [discriminate|].
  now intros [= <-].
Qed.

Lemma SkillOps_eqb_eq a b :
  SkillOps.eqb a b = true <-> str_lower (name a) = str_lower (name b).
Proof. unfold SkillOps.eqb. apply String.eqb_eq. Qed.

Lemma SkillOps_eqb_refl a : SkillOps.eqb a a = true.
Proof. now apply SkillOps_eqb_eq. Qed.

Lemma SkillOps_eqb_sym a b : SkillOps.eqb a b = SkillOps.eqb b a.
Proof. unfold SkillOps.eqb. apply String.eqb_sym. Qed.

Lemma SkillOps_eqb_trans a b c :
  SkillOps.eqb a b = true -> SkillOps.eqb b c = true -> SkillOps.eqb a c = true.
Proof. rewrite !SkillOps_eqb_eq. congruence. Qed.

(** C7. When [Skill(s)] and [Skill(t)] are both built, they are equal
    exactly when the stripped names agree up to letter case, and equal
    skills have equal hashes; [Skill("Python")], [Skill("python")] and
    [Skill(" Python ")] are equal to one another. *)
Theorem skill_equality_and_hash `{PyLib} (s t : string) (a b : Skill) :
  Skill_new s = Ok a ->
  Skill_new t = Ok b ->
  (SkillOps.eqb a b = true <-> str_lower (str_strip s) = str_lower (str_strip t)) /\
  (SkillOps.eqb a b = true -> SkillOps.hash_ a = SkillOps.hash_ b) /\
  (forall x y, In x ["Python"; "python"; " Python "] ->
               In y ["Python"; "python"; " Python "] ->
     exists p q, Skill_new x = Ok p /\ Skill_new y = Ok q /\ SkillOps.eqb p q = true).
Proof.
  intros Ha Hb.
  apply Skill_new_Ok in Ha, Hb.
  split; [|split].
  - rewrite SkillOps_eqb_eq, Ha, Hb. tauto.
  - intros E. apply SkillOps_eqb_eq in E. unfold SkillOps.hash_. now rewrite E.
  - intros x y Hx Hy. simpl in Hx, Hy.
    destruct Hx as [<-|[<-|[<-|[]]]]; destruct Hy as [<-|[<-|[<-|[]]]];
      eexists _, _; repeat split.
Qed.

Lemma skill_equality_and_hash_witness :
  SkillOps.eqb (mkSkill "Rust") (mkSkill "rust") = true <->
  str_lower (str_strip " Rust") = str_lower (str_strip "rust  ").
Proof.
  exact (proj1 (@skill_equality_and_hash RefLib.lib " Rust" "rust  "
                  (mkSkill "Rust") (mkSkill "rust") eq_refl eq_refl)).
Defined.

(** ** Sets of skills and the overlap ratio *)

Lemma skill_set_fold xs : skill_set xs = fold_left set_insert xs [].
Proof. reflexivity. Qed.

Lemma skill_mem_app x xs ys : skill_mem x (xs ++ ys) = skill_mem x xs || skill_mem x ys.
Proof. unfold skill_mem. apply existsb_app. Qed.

Lemma skill_mem_eqb x y xs :
  SkillOps.eqb x y = true -> skill_mem x xs = skill_mem y xs.
Proof.
  intros E. induction xs as [|z xs IH]; simpl; [reflexivity|].
  rewrite IH. f_equal.
  destruct (SkillOps.eqb y z) eqn:Eyz.
  - now apply SkillOps_eqb_trans with y.
  - destruct (SkillOps.eqb x z) eqn:Exz; [|reflexivity].
    rewrite SkillOps_eqb_sym in E.
    now rewrite (SkillOps_eqb_trans _ _ _ E Exz) in Eyz.
Qed.

Lemma fold_set_insert_length xs acc :
  (length (fold_left set_insert xs acc) <= length acc + length xs)%nat.
Proof.
  revert acc. induction xs as [|x xs IH]; intros acc; simpl; [lia|].
  specialize (IH (set_insert acc x)).
  assert (length (set_insert acc x) <= S (length acc))%nat.
  { unfold set_insert. destruct (skill_mem x acc); [lia|].
    rewrite length_app. simpl. lia. }
  lia.
Qed.

Lemma fold_set_insert_mem x xs acc :
  skill_mem x (fold_left set_insert xs acc) = skill_mem x acc || skill_mem x xs.
Proof.
  revert acc. induction xs as [|y xs IH]; intros acc; simpl.
  - now rewrite orb_false_r.
  - rewrite IH. unfold set_insert.
    destruct (skill_mem y acc) eqn:M.
    + destruct (SkillOps.eqb x y) eqn:E; simpl; [|reflexivity].
      rewrite (skill_mem_eqb _ _ _ E), M. reflexivity.
    + rewrite skill_mem_app. simpl. rewrite orb_false_r.
      now rewrite orb_assoc.
Qed.

Lemma skill_set_mem x xs : skill_mem x (skill_set xs) = skill_mem x xs.
Proof. rewrite skill_set_fold, fold_set_insert_mem. reflexivity. Qed.

Lemma skill_set_length xs : (length (skill_set xs) <= length xs)%nat.
Proof. rewrite skill_set_fold. apply (fold_set_insert_length xs []). Qed.

Lemma fold_set_insert_distinct xs acc :
  skills_distinct xs = true ->
  (forall x, In x xs -> skill_mem x acc = false) ->
  fold_left set_insert xs acc = acc ++ xs.
Proof.
  revert acc. induction xs as [|x xs IH]; intros acc D F; simpl.
  - now rewrite app_nil_r.
  - simpl in D. apply andb_true_iff in D as [Dx D].
    apply negb_true_iff in Dx.
    unfold set_insert at 2. rewrite (F x) by now left.
    rewrite IH; [now rewrite <- app_assoc|exact D|].
    intros y Hy. rewrite skill_mem_app, (F y) by now right. simpl.
    rewrite orb_false_r.
    destruct (SkillOps.eqb y x) eqn:E; [|reflexivity].
    rewrite SkillOps_eqb_sym in E.
    rewrite (skill_mem_eqb _ _ _ E) in Dx.
    assert (skill_mem y xs = true); [|congruence].
    unfold skill_mem. apply existsb_exists. exists y. split; [exact Hy|].
    apply SkillOps_eqb_refl.
Qed.

Lemma skill_set_distinct xs : skills_distinct xs = true -> skill_set xs = xs.
Proof.
  intros D. rewrite skill_set_fold, fold_set_insert_distinct; auto.
Qed.

Lemma set_intersection_length a b : (length (set_intersection a b) <= length a)%nat.
Proof. unfold set_intersection. apply List.filter_length_le. Qed.

Lemma set_intersection_all a b :
  (forall x, In x a -> skill_mem x b = true) -> set_intersection a b = a.
Proof.
  unfold set_intersection. induction a as [|x a IH]; intros F; simpl; [reflexivity|].
  rewrite (F x) by now left. f_equal. apply IH. intros y Hy. apply F. now right.
Qed.

Lemma len_div_bounds m n :
  (m <= n)%nat -> (0 < n)%nat -> (0 <= len_div m n)%Q /\ (len_div m n <= 1)%Q.
Proof.
  intros Hmn Hn. unfold len_div.
  assert (0 < inject_Z (Z.of_nat n))%Q as Hpos.
  { change 0%Q with (inject_Z 0). rewrite <- Zlt_Qlt. lia. }
  split.
  - apply Qle_shift_div_l; [exact Hpos|].
    rewrite Qmult_0_l. change 0%Q with (inject_Z 0). rewrite <- Zle_Qle. lia.
  - apply Qle_shift_div_r; [exact Hpos|].
    rewrite Qmult_1_l. rewrite <- Zle_Qle. lia.
Qed.

Lemma len_div_same n : (0 < n)%nat -> (len_div n n == 1)%Q.
Proof.
  intros Hn. unfold len_div. apply Qmult_inv_r.
  change 0%Q with (inject_Z 0). rewrite inject_Z_injective. lia.
Qed.

Lemma list_is_empty_false {A} (l : list A) : list_is_empty l = false <-> l <> [].
Proof. destruct l; simpl; split; congruence. Qed.

Lemma Job_skill_match_score_bounds (job : Job.t) (B : list Skill) :
  (0 <= Job.skill_match_score job B)%Q /\ (Job.skill_match_score job B <= 1)%Q.
Proof.
  unfold Job.skill_match_score.
  destruct (Job.top_skills job) as [|a A] eqn:EA; simpl; [split; discriminate|].
  destruct B as [|b B]; simpl list_is_empty; cbv iota; [split; discriminate|].
  apply len_div_bounds; [|simpl; lia].
  etransitivity; [apply set_intersection_length|apply skill_set_length].
Qed.

Lemma Candidate_skill_match_score_bounds (candidate : Candidate.t) (A : list Skill) :
  (0 <= Candidate.skill_match_score candidate A)%Q /\
  (Candidate.skill_match_score candidate A <= 1)%Q.
Proof.
  unfold Candidate.skill_match_score.
  destruct A as [|a A]; simpl; [split; discriminate|].
  destruct (Candidate.top_skills candidate) as [|t T]; simpl list_is_empty; cbv iota;
    [split; discriminate|].
  apply len_div_bounds; [|simpl; lia].
  etransitivity; [apply set_intersection_length|apply skill_set_length].
Qed.

(** C5 (as amended). Both overlap ratios lie in [0,1] and are 0 when the
    denominator list [A] is empty.  The ratio is 1 when [A] is not empty,
    holds no skill twice and every skill of [A] is among the counterpart's
    skills; on the candidate's side the candidate must also have a top
    skill. *)
Theorem skill_match_score_range
    (id : UUID) (A B others : list Skill) (seniorities : list Seniority)
    (max_salary : option Salary) (top : list Skill) (seniority : option Seniority)
    (salary_expectation : option Salary) :
  let job := Job.mk id A others seniorities max_salary in
  let candidate := Candidate.mk id top others seniority salary_expectation in
  ((0 <= Job.skill_match_score job B)%Q /\ (Job.skill_match_score job B <= 1)%Q) /\
  ((0 <= Candidate.skill_match_score candidate A)%Q /\
   (Candidate.skill_match_score candidate A <= 1)%Q) /\
  (A = [] -> (Job.skill_match_score job B == 0)%Q /\
             (Candidate.skill_match_score candidate A == 0)%Q) /\
  (A <> [] -> skills_distinct A = true ->
   (forall a, In a A -> skill_mem a B = true) ->
   (Job.skill_match_score job B == 1)%Q) /\
  (A <> [] -> skills_distinct A = true -> top <> [] ->
   (forall a, In a A -> skill_mem a (top ++ others) = true) ->
   (Candidate.skill_match_score candidate A == 1)%Q).
Proof.
  intros job candidate.
  split; [apply Job_skill_match_score_bounds|].
  split; [apply Candidate_skill_match_score_bounds|].
  split; [|split].
  - intros ->. split; reflexivity.
  - intros HA D Sub. unfold Job.skill_match_score. simpl.
    destruct A as [|a A]; [congruence|].
    destruct B as [|b B].
    { specialize (Sub a (or_introl eq_refl)). discriminate. }
    simpl list_is_empty. cbv iota. simpl orb. cbv iota.
    rewrite (skill_set_distinct _ D), set_intersection_all.
    + apply len_div_same. simpl. lia.
    + intros x Hx. rewrite skill_set_mem. now apply Sub.
  - intros HA D HT Sub. unfold Candidate.skill_match_score. simpl.
    destruct A as [|a A]; [congruence|].
    destruct top as [|t top]; [congruence|].
    simpl list_is_empty. cbv iota. simpl orb. cbv iota.
    rewrite (skill_set_distinct _ D), set_intersection_all.
    + apply len_div_same. simpl. lia.
    + intros x Hx. rewrite skill_set_mem. now apply Sub.
Qed.

Lemma skill_match_score_range_witness :
  (Job.skill_match_score
     (Job.mk (mkUUID 1) [mkSkill "Python"; mkSkill "AWS"] [] [] None)
     [mkSkill "aws"; mkSkill "Go"; mkSkill "python"] == 1)%Q.
Proof.
  refine (proj1 (proj2 (proj2 (proj2
    (skill_match_score_range (mkUUID 1) [mkSkill "Python"; mkSkill "AWS"]
       [mkSkill "aws"; mkSkill "Go"; mkSkill "python"] [] [] None
       [mkSkill "Go"] None None)))) _ _ _).
  - discriminate.
  - reflexivity.
  - intros a [<-|[<-|[]]]; reflexivity.
Defined.

(** C5 as first stated fails on three inputs where every skill of [A] is
    among the counterpart's skills and yet the ratio is not 1: an empty [A]
    (ratio 0), an [A] that lists one skill twice (ratio 1/2), and a candidate
    holding the skill as a secondary skill only (ratio 0). *)
Lemma skill_match_score_subset_not_one :
  (let job := Job.mk (mkUUID 1) [] [] [] None in
   (forall a, In a (Job.top_skills job) -> skill_mem a [mkSkill "Python"] = true) /\
   (Job.skill_match_score job [mkSkill "Python"] == 0)%Q /\
   ~ (Job.skill_match_score job [mkSkill "Python"] == 1)%Q) /\
  (let job := Job.mk (mkUUID 1) [mkSkill "Python"; mkSkill "python"] [] [] None in
   (forall a, In a (Job.top_skills job) -> skill_mem a [mkSkill "Python"] = true) /\
   (Job.skill_match_score job [mkSkill "Python"] == 1 # 2)%Q /\
   ~ (Job.skill_match_score job [mkSkill "Python"] == 1)%Q) /\
  (let candidate := Candidate.mk (mkUUID 2) [] [mkSkill "Python"] None None in
   (forall a, In a [mkSkill "Python"] ->
      skill_mem a (Candidate.top_skills candidate ++ Candidate.other_skills candidate)
      = true) /\
   (Candidate.skill_match_score candidate [mkSkill "Python"] == 0)%Q /\
   ~ (Candidate.skill_match_score candidate [mkSkill "Python"] == 1)%Q).
Proof.
  repeat split; try discriminate.
  - intros a [].
  - intros a [<-|[<-|[]]]; reflexivity.
  - intros a [<-|[]]; reflexivity.
Qed.

(** ** The weighted score *)

Lemma calculate_job_candidate_match_spec job candidate filters :
  (MatchingService.calculate_job_candidate_match job candidate filters ==
   weighted_score_spec
     (dict_get filters "top_skill_match" false)
     (dict_get filters "seniority_match" false)
     (dict_get filters "salary_match" false)
     (Job.skill_match_score job (Candidate.top_skills candidate))
     (Job.matches_candidate_seniority job (Candidate.seniority candidate))
     (Job.matches_candidate_salary job (Candidate.salary_expectation candidate)))%Q.
Proof.
  unfold MatchingService.calculate_job_candidate_match, weighted_score_spec.
  generalize (Job.skill_match_score job (Candidate.top_skills candidate)) as x.
  intros x.
  destruct (dict_get filters "top_skill_match" false),
    (dict_get filters "seniority_match" false),
    (dict_get filters "salary_match" false),
    (Job.matches_candidate_seniority job (Candidate.seniority candidate)),
    (Job.matches_candidate_salary job (Candidate.salary_expectation candidate));
    cbn -[Qplus Qmult Qdiv]; try reflexivity;
    unfold py_sum; cbn -[Qplus Qmult Qdiv]; field; try discriminate.
Qed.

(** C1. For every job, candidate and filter dictionary the scorer returns
    the weight-normalized average of the produced components: the skill
    criterion (weight 2.0), when enabled, always contributes the overlap
    ratio; seniority (weight 1.5) and salary (weight 1.0) contribute 1.0 when
    enabled and matching and are left out otherwise; the result is 0 when
    nothing was produced.  With skill and seniority enabled, an overlap of
    0.5 and a matching seniority, the score is 5/7, about 0.714. *)
Theorem calculate_job_candidate_match_weighted_average
    (job : Job.t) (candidate : Candidate.t) (filters : gmap string bool) :
  let skill_enabled := dict_get filters "top_skill_match" false in
  let seniority_enabled := dict_get filters "seniority_match" false in
  let salary_enabled := dict_get filters "salary_match" false in
  let skillMatchScore := Job.skill_match_score job (Candidate.top_skills candidate) in
  let matchesSeniority :=
    Job.matches_candidate_seniority job (Candidate.seniority candidate) in
  let matchesSalary :=
    Job.matches_candidate_salary job (Candidate.salary_expectation candidate) in
  let score := MatchingService.calculate_job_candidate_match job candidate filters in
  (score == weighted_score_spec skill_enabled seniority_enabled salary_enabled
              skillMatchScore matchesSeniority matchesSalary)%Q /\
  ((0 <= skillMatchScore)%Q /\ (skillMatchScore <= 1)%Q) /\
  (skill_enabled = false -> seniority_enabled && matchesSeniority = false ->
   salary_enabled && matchesSalary = false -> (score == 0)%Q) /\
  (skill_enabled = true -> seniority_enabled = true -> salary_enabled = false ->
   (skillMatchScore == 0.5)%Q -> matchesSeniority = true ->
   (score == (0.5 * 2.0 + 1.0 * 1.5) / (2.0 + 1.5))%Q /\
   (0.714 <= score)%Q /\ (score < 0.715)%Q).
Proof.
  intros skill_enabled seniority_enabled salary_enabled skillMatchScore
         matchesSeniority matchesSalary score.
  pose proof (calculate_job_candidate_match_spec job candidate filters) as Hspec.
  fold skill_enabled seniority_enabled salary_enabled skillMatchScore
       matchesSeniority matchesSalary score in Hspec.
  split; [exact Hspec|].
  split; [apply Job_skill_match_score_bounds|].
  split.
  - intros E1 E2 E3. rewrite Hspec. unfold weighted_score_spec, criterion.
    rewrite E1, E2, E3. reflexivity.
  - intros E1 E2 E3 Hx Hm.
    assert (score == 5 # 7)%Q as Hs.
    { rewrite Hspec. unfold weighted_score_spec, criterion.
      rewrite E1, E2, E3, Hm. cbn -[Qplus Qmult Qdiv].
      rewrite Hx. reflexivity. }
    split; [rewrite Hs; reflexivity|].
    split; rewrite Hs; [discriminate|reflexivity].
Qed.

Lemma calculate_job_candidate_match_weighted_average_witness :
  (MatchingService.calculate_job_candidate_match
     (Job.mk (mkUUID 1) [mkSkill "Python"; mkSkill "AWS"] [] [mkSeniority SENIOR] None)
     (Candidate.mk (mkUUID 2) [mkSkill "python"; mkSkill "Go"] []
                   (Some (mkSeniority SENIOR)) None)
     (<["seniority_match" := true]> (<["top_skill_match" := true]> ∅))
   == (0.5 * 2.0 + 1.0 * 1.5) / (2.0 + 1.5))%Q.
Proof.
  refine (proj1 (proj2 (proj2 (proj2
    (calculate_job_candidate_match_weighted_average
       (Job.mk (mkUUID 1) [mkSkill "Python"; mkSkill "AWS"] [] [mkSeniority SENIOR] None)
       (Candidate.mk (mkUUID 2) [mkSkill "python"; mkSkill "Go"] []
                     (Some (mkSeniority SENIOR)) None)
       (<["seniority_match" := true]> (<["top_skill_match" := true]> ∅)))))
    _ _ _ _ _)); reflexivity.
Defined.

(** C10. Two candidates that differ in their secondary skills only get the
    same score against every job under every filter dictionary: the scorer
    reads the candidate's top skills, seniority and salary expectation. *)
Theorem calculate_job_candidate_match_ignores_other_skills
    (job : Job.t) (filters : gmap string bool) (id : UUID) (top_skills : list Skill)
    (other_skills other_skills' : list Skill) (seniority : option Seniority)
    (salary_expectation : option Salary) :
  MatchingService.calculate_job_candidate_match job
    (Candidate.mk id top_skills other_skills seniority salary_expectation) filters
  = MatchingService.calculate_job_candidate_match job
    (Candidate.mk id top_skills other_skills' seniority salary_expectation) filters.
Proof.
  unfold MatchingService.calculate_job_candidate_match. simpl. reflexivity.
Qed.

(** ** The match operation and its filters *)

Lemma all_filters_disabled :
  forallb negb
    (dict_values (<["seniority_match" := false]>
                  (<["top_skill_match" := false]>
                  (<["salary_match" := false]> (∅ : gmap string bool))))) = true.
Proof. vm_compute. reflexivity. Qed.

(** C3. For every source id, document type and state of the repositories,
    the match operation called with all three filters disabled fails with
    the ValueError "At least one filter must be enabled"; it returns neither
    a score nor a result list, empty or not. *)
Theorem find_matches_rejects_empty_filters
    (self : MatchingApplicationService.t) (doc_id doc_type : string) :
  MatchingApplicationService.find_matches self doc_id doc_type
    (MatchFiltersDTO.mk false false false)
  = Raise (ValueError "At least one filter must be enabled") /\
  MatchingApplicationService.find_matches self doc_id doc_type
    (MatchFiltersDTO.from_dict ∅)
  = Raise (ValueError "At least one filter must be enabled") /\
  (forall matches,
     MatchingApplicationService.find_matches self doc_id doc_type
       (MatchFiltersDTO.mk false false false) <> Ok matches).
Proof.
  assert (MatchingApplicationService.find_matches self doc_id doc_type
            (MatchFiltersDTO.mk false false false)
          = Raise (ValueError "At least one filter must be enabled")) as E.
  { unfold MatchingApplicationService.find_matches.
    cbn [MatchFiltersDTO.seniority_match MatchFiltersDTO.top_skill_match
         MatchFiltersDTO.salary_match].
    rewrite all_filters_disabled. reflexivity. }
  split; [exact E|]. split; [exact E|].
  intros matches. rewrite E. discriminate.
Qed.

(** Below the application service the same filters are not an error: the
    scorer answers 0 and a repository answers the empty list. *)
Lemma calculate_job_candidate_match_no_filters job candidate :
  MatchingService.calculate_job_candidate_match job candidate ∅ = 0.0%Q.
Proof. vm_compute. reflexivity. Qed.

Lemma should_queries_no_filters candidate job :
  ElasticsearchJobRepository.should_queries candidate ∅ = [] /\
  ElasticsearchCandidateRepository.should_queries job ∅ = [].
Proof. split; vm_compute; reflexivity. Qed.

(** ** The skill clause *)

(** C6. For a source with a non-empty top-skill list, the skill clause has
    the minimum-match threshold [min(len(top_skills), MIN_MATCHING_SKILLS)]
    with [MIN_MATCHING_SKILLS = 2], in the stand-alone service and in both
    repositories; the threshold never exceeds the number of top skills and is
    2 as soon as there are two of them. *)
Theorem skill_clause_threshold
    (source_doc : gmap string pyval) (items : list pyval)
    (candidate : Candidate.t) (job : Job.t) (filters : gmap string bool) :
  MIN_MATCHING_SKILLS = 2 /\
  (source_doc !! "top_skills" = Some (PList items) -> items <> [] ->
   let threshold := Nat.min (length items) MIN_MATCHING_SKILLS in
   ElasticsearchService._build_skills_query source_doc
   = Ok (TermsClause "top_skills" (PList items) (FILTER_WEIGHT "top_skill_match")
                     (Some threshold)) /\
   threshold <= length items /\ (2 <= length items -> threshold = 2)) /\
  (dict_get filters "top_skill_match" false = true ->
   Candidate.top_skills candidate <> [] ->
   let names := SkillOps.to_str <$> Candidate.top_skills candidate in
   let threshold := Nat.min (length (Candidate.top_skills candidate)) MIN_MATCHING_SKILLS in
   clauses_on "top_skills" (ElasticsearchJobRepository.should_queries candidate filters)
   = [TermsClause "top_skills" (PList (PStr <$> names))
                  (FILTER_WEIGHT "top_skill_match") (Some threshold)] /\
   threshold <= length (Candidate.top_skills candidate) /\
   (2 <= length (Candidate.top_skills candidate) -> threshold = 2)) /\
  (dict_get filters "top_skill_match" false = true ->
   Job.top_skills job <> [] ->
   let names := SkillOps.to_str <$> Job.top_skills job in
   let threshold := Nat.min (length (Job.top_skills job)) MIN_MATCHING_SKILLS in
   clauses_on "top_skills" (ElasticsearchCandidateRepository.should_queries job filters)
   = [TermsClause "top_skills" (PList (PStr <$> names))
                  (FILTER_WEIGHT "top_skill_match") (Some threshold)] /\
   threshold <= length (Job.top_skills job) /\
   (2 <= length (Job.top_skills job) -> threshold = 2)).
Proof.
  unfold MIN_MATCHING_SKILLS.
  split; [reflexivity|]. split; [|split].
  - intros Hdoc Hne.
    split; [|split; lia].
    unfold ElasticsearchService._build_skills_query, dict_get. rewrite Hdoc. simpl.
    destruct items; [congruence|]. reflexivity.
  - intros Hf Hne.
    split; [|split; lia].
    unfold ElasticsearchJobRepository.should_queries. rewrite Hf.
    apply list_is_empty_false in Hne. rewrite Hne.
    rewrite length_fmap.
    destruct (dict_get filters "salary_match" false),
      (dict_get filters "seniority_match" false),
      (Candidate.salary_expectation candidate), (Candidate.seniority candidate);
      reflexivity.
  - intros Hf Hne.
    split; [|split; lia].
    unfold ElasticsearchCandidateRepository.should_queries. rewrite Hf.
    apply list_is_empty_false in Hne. rewrite Hne.
    rewrite length_fmap.
    destruct (dict_get filters "salary_match" false),
      (dict_get filters "seniority_match" false),
      (Job.max_salary job), (list_is_empty (Job.seniorities job));
      reflexivity.
Qed.

Lemma skill_clause_threshold_witness :
  ElasticsearchService._build_skills_query
    (<["top_skills" := PList [PStr "Python"; PStr "AWS"; PStr "Go"]]> ∅)
  = Ok (TermsClause "top_skills" (PList [PStr "Python"; PStr "AWS"; PStr "Go"])
                    (FILTER_WEIGHT "top_skill_match") (Some 2)).
Proof.
  refine (proj1 (proj1 (proj2
    (skill_clause_threshold
       (<["top_skills" := PList [PStr "Python"; PStr "AWS"; PStr "Go"]]> ∅)
       [PStr "Python"; PStr "AWS"; PStr "Go"]
       (Candidate.mk (mkUUID 2) [mkSkill "Python"] [] None None)
       (Job.mk (mkUUID 1) [mkSkill "Python"] [] [] None)
       (<["top_skill_match" := true]> ∅))) _ _)).
  - vm_compute. reflexivity.
  - discriminate.
Defined.

(** ** The salary clause *)

Lemma dict_get_insert_eq {V} (d : gmap string V) k v dflt :
  dict_get (<[k := v]> d) k dflt = v.
Proof. unfold dict_get. now rewrite lookup_insert_eq. Qed.

Lemma dict_get_insert_ne {V} (d : gmap string V) k k' v dflt :
  k <> k' -> dict_get (<[k := v]> d) k' dflt = dict_get d k' dflt.
Proof. intros Hne. unfold dict_get. now rewrite lookup_insert_ne. Qed.

(** C2 (as amended). With the salary filter enabled and no salary on the
    source: the stand-alone service fails with a ValueError that names the
    missing field, in [_build_salary_query] and so in [find_matches] once the
    connection check and the fetch went through; the two repositories leave
    the salary clause out, building the ["should"] list they would build with
    the salary filter off.  A salary clause built by a repository always has
    an integer bound. *)
Theorem salary_clause_missing_salary
    (es : Elasticsearch) (doc_id doc_type : string) (source_doc : gmap string pyval)
    (filters : gmap string bool) (candidate : Candidate.t) (job : Job.t) :
  (source_doc !! "max_salary" = None ->
   ElasticsearchService._build_salary_query source_doc "job"
   = Raise (ValueError "Missing required salary field: 'max_salary'")) /\
  (doc_type <> "job" -> source_doc !! "salary_expectation" = None ->
   ElasticsearchService._build_salary_query source_doc doc_type
   = Raise (ValueError "Missing required salary field: 'salary_expectation'")) /\
  (ElasticsearchService.get_document es doc_id doc_type = Ok source_doc ->
   dict_get filters "salary_match" false = true ->
   source_doc !! (if String.eqb doc_type "job" then "max_salary"
                  else "salary_expectation") = None ->
   ElasticsearchService.find_matches es doc_id doc_type filters
   = Raise (ValueError
       ("Missing required salary field: '"
        ++ (if String.eqb doc_type "job" then "max_salary" else "salary_expectation")
        ++ "'"))) /\
  (Candidate.salary_expectation candidate = None ->
   ElasticsearchJobRepository.should_queries candidate filters
   = ElasticsearchJobRepository.should_queries candidate
       (<["salary_match" := false]> filters)) /\
  (Job.max_salary job = None ->
   ElasticsearchCandidateRepository.should_queries job filters
   = ElasticsearchCandidateRepository.should_queries job
       (<["salary_match" := false]> filters)) /\
  (forall c bound, In c (ElasticsearchJobRepository.should_queries candidate filters) ->
     range_bound c = Some bound -> is_int bound = true) /\
  (forall c bound, In c (ElasticsearchCandidateRepository.should_queries job filters) ->
     range_bound c = Some bound -> is_int bound = true).
Proof.
  split; [|split; [|split; [|split; [|split; [|split]]]]].
  - intros Hnone. unfold ElasticsearchService._build_salary_query, dict_item.
    simpl. rewrite Hnone. reflexivity.
  - intros Hne Hnone. unfold ElasticsearchService._build_salary_query, dict_item.
    apply String.eqb_neq in Hne. rewrite Hne, Hnone. reflexivity.
  - intros Hget Hf Hnone.
    unfold ElasticsearchService.find_matches.
    destruct (negb (ElasticsearchService.check_connection es)) eqn:Hconn.
    { unfold ElasticsearchService.get_document in Hget. rewrite Hconn in Hget.
      discriminate. }
    rewrite Hget, Hf. simpl.
    unfold ElasticsearchService._build_salary_query, dict_item.
    destruct (String.eqb doc_type "job"); rewrite Hnone; reflexivity.
  - intros Hnone. unfold ElasticsearchJobRepository.should_queries.
    rewrite dict_get_insert_eq, !dict_get_insert_ne by discriminate.
    rewrite Hnone. destruct (dict_get filters "salary_match" false); reflexivity.
  - intros Hnone. unfold ElasticsearchCandidateRepository.should_queries.
    rewrite dict_get_insert_eq, !dict_get_insert_ne by discriminate.
    rewrite Hnone. destruct (dict_get filters "salary_match" false); reflexivity.
  - intros c bound Hin Hb. unfold ElasticsearchJobRepository.should_queries in Hin.
    destruct (dict_get filters "salary_match" false),
      (dict_get filters "top_skill_match" false),
      (dict_get filters "seniority_match" false),
      (Candidate.salary_expectation candidate),
      (list_is_empty (Candidate.top_skills candidate)),
      (Candidate.seniority candidate);
      simpl in Hin; intuition (subst; simpl in Hb; try discriminate;
                               injection Hb as <-; reflexivity).
  - intros c bound Hin Hb. unfold ElasticsearchCandidateRepository.should_queries in Hin.
    destruct (dict_get filters "salary_match" false),
      (dict_get filters "top_skill_match" false),
      (dict_get filters "seniority_match" false),
      (Job.max_salary job),
      (list_is_empty (Job.top_skills job)),
      (list_is_empty (Job.seniorities job));
      simpl in Hin; intuition (subst; simpl in Hb; try discriminate;
                               injection Hb as <-; reflexivity).
Qed.

Lemma salary_clause_missing_salary_witness :
  ElasticsearchService.find_matches service_without_salaries "1" "job" only_salary_match
  = Raise (ValueError "Missing required salary field: 'max_salary'").
Proof.
  refine (proj1 (proj2 (proj2
    (salary_clause_missing_salary service_without_salaries "1" "job"
       job_without_salary only_salary_match
       (Candidate.mk (mkUUID 1) [] [] None None)
       (Job.mk (mkUUID 1) [] [] [] None)))) _ _ _); vm_compute; reflexivity.
Defined.

(** C2 as first stated fails in the repositories: with only the salary
    filter enabled and a source stored without its salary field, both
    repositories and the match operation on top of them answer the empty
    list; no ValueError is raised. *)
Lemma salary_clause_silently_skipped :
  (get_document index_without_salaries CANDIDATES_INDEX "1" = Some candidate_without_salary /\
   candidate_without_salary !! "salary_expectation" = None /\
   dict_get only_salary_match "salary_match" false = true) /\
  @ElasticsearchJobRepository.find_matches_for_candidate RefLib.lib
    index_without_salaries "1" only_salary_match = Ok [] /\
  @ElasticsearchCandidateRepository.find_matches_for_job RefLib.lib
    index_without_salaries "1" only_salary_match = Ok [] /\
  MatchingApplicationService.find_matches
    (@create_matching_application_service RefLib.lib index_without_salaries)
    "1" "candidate" (MatchFiltersDTO.mk true false false) = Ok [] /\
  @ElasticsearchJobRepository.find_matches_for_candidate RefLib.lib
    index_without_salaries "1"
    (<["top_skill_match" := true]> only_salary_match)
  = Ok (hits_to_matches
          (search index_without_salaries JOBS_INDEX
             (mkQuery [TermsClause "top_skills" (PList [PStr "Python"; PStr "AWS"])
                                   (FILTER_WEIGHT "top_skill_match") (Some 2)] 1))).
Proof. repeat split; vm_compute; reflexivity. Qed.

(** ** Decoding documents *)

Lemma seniorities_loop_strings strs acc :
  seniorities_loop (PStr <$> strs) acc = Ok (acc ++ recognized_seniorities strs).
Proof.
  revert acc. induction strs as [|s strs IH]; intros acc; simpl.
  - now rewrite app_nil_r.
  - unfold SeniorityOps.from_string, recognized_seniorities. simpl.
    destruct (SeniorityLevel_of_value (str_lower s)) as [l|]; simpl.
    + rewrite IH, <- app_assoc. reflexivity.
    + apply IH.
Qed.

Lemma recognized_seniorities_app xs ys :
  recognized_seniorities (xs ++ ys)
  = recognized_seniorities xs ++ recognized_seniorities ys.
Proof. unfold recognized_seniorities. apply omap_app. Qed.

Lemma recognized_seniorities_drop xs bad ys :
  ~ In (str_lower bad) VALID_SENIORITIES ->
  recognized_seniorities (xs ++ bad :: ys) = recognized_seniorities (xs ++ ys).
Proof.
  intros Hbad. rewrite !recognized_seniorities_app. f_equal.
  unfold recognized_seniorities. simpl.
  destruct (SeniorityLevel_of_value (str_lower bad)) as [l|] eqn:E; [|reflexivity].
  exfalso. apply Hbad, VALID_SENIORITIES_values. exists l.
  now apply SeniorityLevel_of_value_Some.
Qed.

Lemma str_lower_SeniorityLevel_value l :
  str_lower (SeniorityLevel_value l) = SeniorityLevel_value l.
Proof. destruct l; reflexivity. Qed.

Lemma recognized_seniorities_keep l :
  recognized_seniorities [SeniorityLevel_value l] = [mkSeniority l].
Proof. destruct l; reflexivity. Qed.

Lemma JobMapper_to_domain_seniority_strings `{PyLib}
    (doc_id : string) (doc : gmap string pyval) (strs : list string) :
  doc !! "seniorities" = Some (PList (PStr <$> strs)) ->
  JobMapper.to_domain doc_id doc =
    (top_skills ← skills_field doc "top_skills";
     other_skills ← skills_field doc "other_skills";
     max_salary ← salary_field doc "max_salary";
     uuid_id ← uuid_of_doc_id doc_id;
     Ok (Job.mk uuid_id top_skills other_skills (recognized_seniorities strs)
                max_salary)).
Proof.
  intros Hdoc. unfold JobMapper.to_domain.
  destruct (skills_field doc "top_skills") as [top|e]; [|reflexivity].
  destruct (skills_field doc "other_skills") as [other|e]; [|reflexivity].
  unfold dict_get. rewrite Hdoc. simpl.
  rewrite seniorities_loop_strings. reflexivity.
Qed.

(** C9 (as amended). A seniority string that names no level does not fail
    the conversion: decoding a job keeps the recognized entries in order and
    drops the others, decoding a candidate leaves the seniority absent, and
    all other fields are decoded as they are, their errors being raised.  One
    more ValueError is caught on the way: that of a document id that is not a
    UUID string, which is then read as a decimal number; every other failure
    of the id is raised. *)
Theorem to_domain_skips_invalid_seniority `{PyLib}
    (doc_id : string) (doc : gmap string pyval) (strs : list string) (s : string) :
  (doc !! "seniorities" = Some (PList (PStr <$> strs)) ->
   JobMapper.to_domain doc_id doc =
     (top_skills ← skills_field doc "top_skills";
      other_skills ← skills_field doc "other_skills";
      max_salary ← salary_field doc "max_salary";
      uuid_id ← uuid_of_doc_id doc_id;
      Ok (Job.mk uuid_id top_skills other_skills (recognized_seniorities strs)
                 max_salary))) /\
  (forall xs bad ys, ~ In (str_lower bad) VALID_SENIORITIES ->
     recognized_seniorities (xs ++ bad :: ys) = recognized_seniorities (xs ++ ys)) /\
  (forall l, recognized_seniorities [SeniorityLevel_value l] = [mkSeniority l]) /\
  (doc !! "seniority" = Some (PStr s) -> ~ In (str_lower s) VALID_SENIORITIES ->
   CandidateMapper.to_domain doc_id doc =
     (top_skills ← skills_field doc "top_skills";
      other_skills ← skills_field doc "other_skills";
      salary_expectation ← salary_field doc "salary_expectation";
      uuid_id ← uuid_of_doc_id doc_id;
      Ok (Candidate.mk uuid_id top_skills other_skills None salary_expectation))) /\
  (forall u, UUID_of_str doc_id = Ok u -> uuid_of_doc_id doc_id = Ok u) /\
  (forall msg, UUID_of_str doc_id = Raise (ValueError msg) ->
     uuid_of_doc_id doc_id =
       (n ← int_of_str doc_id;
        UUID_of_str ("00000000-0000-0000-0000-" ++ format_012d n))) /\
  (forall e, (forall msg, e <> ValueError msg) -> UUID_of_str doc_id = Raise e ->
     uuid_of_doc_id doc_id = Raise e).
Proof.
  split; [|split; [|split; [|split; [|split; [|split]]]]].
  - apply JobMapper_to_domain_seniority_strings.
  - apply recognized_seniorities_drop.
  - apply recognized_seniorities_keep.
  - intros Hdoc Hbad. unfold CandidateMapper.to_domain.
    destruct (skills_field doc "top_skills") as [top|e]; [|reflexivity].
    destruct (skills_field doc "other_skills") as [other|e]; [|reflexivity].
    unfold CandidateMapper.seniority_field, dict_contains, dict_item.
    rewrite Hdoc. simpl. unfold SeniorityOps.from_string.
    destruct (SeniorityLevel_of_value (str_lower s)) as [l|] eqn:E; [|reflexivity].
    exfalso. apply Hbad, VALID_SENIORITIES_values. exists l.
    now apply SeniorityLevel_of_value_Some.
  - intros u Hu. unfold uuid_of_doc_id. now rewrite Hu.
  - intros msg Hu. unfold uuid_of_doc_id. now rewrite Hu.
  - intros e He Hu. unfold uuid_of_doc_id. rewrite Hu.
    destruct e; try reflexivity. now destruct (He msg).
Qed.

Lemma to_domain_skips_invalid_seniority_witness :
  @JobMapper.to_domain RefLib.lib "1" job_with_a_bad_seniority
  = Ok (Job.mk (mkUUID 1) [mkSkill "Python"; mkSkill "AWS"] []
               [mkSeniority MIDLEVEL; mkSeniority SENIOR] (Some (mkSalary 85000))).
Proof.
  refine (eq_trans
    (proj1 (@to_domain_skips_invalid_seniority RefLib.lib "1"
              job_with_a_bad_seniority ["midlevel"; "boss"; "Senior"] "boss") _) _);
    vm_compute; reflexivity.
Defined.

(** C9 as first stated fails on its last clause: decoding job "7" from a
    document whose seniorities are all recognized succeeds although
    [UUID("7")] raised a ValueError, which was caught without a trace. *)
Lemma to_domain_swallows_invalid_uuid :
  let doc : gmap string pyval :=
    <["seniorities" := PList [PStr "senior"]]>
    (<["top_skills" := PList [PStr "Python"]]> ∅) in
  @UUID_of_str RefLib.lib "7"
  = Raise (ValueError "badly formed hexadecimal UUID string") /\
  @JobMapper.to_domain RefLib.lib "7" doc
  = Ok (Job.mk (mkUUID 7) [mkSkill "Python"] [] [mkSeniority SENIOR] None) /\
  @CandidateMapper.to_domain RefLib.lib "7" (<["top_skills" := PList [PStr "Python"]]> ∅)
  = Ok (Candidate.mk (mkUUID 7) [mkSkill "Python"] [] None None).
Proof. repeat split; vm_compute; reflexivity. Qed.

(** ** Entity, document, entity *)

Lemma salary_field_absent (doc : gmap string pyval) key :
  doc !! key = Some PNone -> salary_field doc key = Raise TypeError.
Proof.
  intros Hdoc. unfold salary_field, dict_contains, dict_item. now rewrite Hdoc.
Qed.

Lemma seniority_field_absent (doc : gmap string pyval) :
  doc !! "seniority" = Some PNone ->
  CandidateMapper.seniority_field doc = Raise AttributeError.
Proof.
  intros Hdoc. unfold CandidateMapper.seniority_field, dict_contains, dict_item.
  now rewrite Hdoc.
Qed.

(** No job without a maximum salary, and no candidate without a seniority
    or without a salary expectation, comes back from its own document. *)
Lemma JobMapper_round_trip_no_salary `{PyLib} (job : Job.t) (doc_id : string) :
  Job.max_salary job = None ->
  is_ok (JobMapper.to_domain doc_id (JobMapper.to_document job)) = false.
Proof.
  intros Hnone. unfold JobMapper.to_domain.
  rewrite (salary_field_absent (JobMapper.to_document job) "max_salary").
  - destruct (skills_field _ "top_skills"); [|reflexivity].
    destruct (skills_field _ "other_skills"); [|reflexivity].
    destruct (py_iter _); [|reflexivity]. simpl.
    destruct (seniorities_loop _ _); reflexivity.
  - unfold JobMapper.to_document. rewrite lookup_insert_eq, Hnone. reflexivity.
Qed.

Lemma CandidateMapper_round_trip_absent `{PyLib} (candidate : Candidate.t) (doc_id : string) :
  Candidate.seniority candidate = None \/ Candidate.salary_expectation candidate = None ->
  is_ok (CandidateMapper.to_domain doc_id (CandidateMapper.to_document candidate)) = false.
Proof.
  intros Hnone. unfold CandidateMapper.to_domain.
  destruct (skills_field _ "top_skills"); [|reflexivity].
  destruct (skills_field _ "other_skills"); [|reflexivity]. simpl.
  destruct Hnone as [Hnone|Hnone].
  - rewrite seniority_field_absent; [reflexivity|].
    unfold CandidateMapper.to_document.
    rewrite lookup_insert_ne by discriminate.
    rewrite lookup_insert_eq, Hnone. reflexivity.
  - destruct (CandidateMapper.seniority_field _); [|reflexivity]. simpl.
    rewrite salary_field_absent; [reflexivity|].
    unfold CandidateMapper.to_document. rewrite lookup_insert_eq, Hnone. reflexivity.
Qed.

(** C4, at the entities that refute it.  A job without a maximum salary
    becomes a document whose ["max_salary"] is [None]; decoding it calls
    [Salary(None)], which raises TypeError.  A candidate without a seniority
    fails in [None.lower()] with AttributeError, and one without a salary
    expectation with TypeError.  The library functions play no part. *)
Theorem round_trip_fails_on_absent_fields `{PyLib} :
  let job := Job.mk (mkUUID 1) [mkSkill "Python"] [] [mkSeniority SENIOR] None in
  let junior := Candidate.mk (mkUUID 2) [mkSkill "Python"] [] None (Some (mkSalary 80000)) in
  let unpaid := Candidate.mk (mkUUID 3) [mkSkill "Python"] [] (Some (mkSeniority SENIOR)) None in
  JobMapper.to_document job !! "max_salary" = Some PNone /\
  JobMapper.to_domain (UUID_str (Job.id job)) (JobMapper.to_document job)
  = Raise TypeError /\
  CandidateMapper.to_domain (UUID_str (Candidate.id junior))
    (CandidateMapper.to_document junior) = Raise AttributeError /\
  CandidateMapper.to_domain (UUID_str (Candidate.id unpaid))
    (CandidateMapper.to_document unpaid) = Raise TypeError.
Proof. repeat split; vm_compute; reflexivity. Qed.

(** With every optional field present the round trip does hold, for
    entities whose value objects went through their constructors. *)

Lemma str_rstrip_idem s : str_rstrip (str_rstrip s) = str_rstrip s.
Proof.
  induction s as [|c s IH]; simpl; [reflexivity|].
  destruct (str_rstrip s) as [|d k] eqn:E.
  - destruct (isspace c) eqn:Hc; simpl; [reflexivity|]. now rewrite Hc.
  - change (str_rstrip (String c (String d k))) with
      (match str_rstrip (String d k) with
       | EmptyString => if isspace c then EmptyString else String c EmptyString
       | kept => String c kept
       end).
    rewrite IH. reflexivity.
Qed.

Lemma str_lstrip_rstrip_lstrip s :
  str_lstrip (str_rstrip (str_lstrip s)) = str_rstrip (str_lstrip s).
Proof.
  induction s as [|c s IH]; simpl; [reflexivity|].
  destruct (isspace c) eqn:Hc; [exact IH|].
  simpl. destruct (str_rstrip s); rewrite ?Hc; simpl; now rewrite Hc.
Qed.

Lemma str_strip_idem s : str_strip (str_strip s) = str_strip s.
Proof.
  unfold str_strip. rewrite str_lstrip_rstrip_lstrip. apply str_rstrip_idem.
Qed.

Lemma Skill_new_valid s a : Skill_new s = Ok a -> valid_skill a.
Proof.
  unfold valid_skill, Skill_new.
  destruct (str_is_empty (str_strip s)) eqn:E; [discriminate|].
  intros [= <-]. simpl. now rewrite str_strip_idem, E.
Qed.

Lemma comprehension_skill_strs skills :
  Forall valid_skill skills ->
  comprehension Skill_of_value ((fun skill => PStr (SkillOps.to_str skill)) <$> skills)
  = Ok skills.
Proof.
  induction 1 as [|skill skills Hv _ IH]; simpl; [reflexivity|].
  unfold SkillOps.to_str, fmap in *. rewrite Hv. simpl. now rewrite IH.
Qed.

Lemma recognized_seniorities_to_str seniorities :
  recognized_seniorities (SeniorityOps.to_str <$> seniorities) = seniorities.
Proof.
  induction seniorities as [|[l] rest IH]; [reflexivity|].
  change (recognized_seniorities (SeniorityOps.to_str <$> {| level := l |} :: rest))
    with (recognized_seniorities
            ([SeniorityLevel_value l] ++ (SeniorityOps.to_str <$> rest))).
  rewrite recognized_seniorities_app, recognized_seniorities_keep, IH. reflexivity.
Qed.

Lemma skills_field_skill_strs (doc : gmap string pyval) key skills :
  doc !! key = Some (skill_strs skills) -> Forall valid_skill skills ->
  skills_field doc key = Ok skills.
Proof.
  intros Hdoc Hvalid. unfold skills_field, dict_get. rewrite Hdoc. simpl.
  now apply comprehension_skill_strs.
Qed.

Lemma salary_field_present (doc : gmap string pyval) key salary :
  doc !! key = Some (PInt (value salary)) -> (0 <= value salary)%Z ->
  salary_field doc key = Ok (Some salary).
Proof.
  intros Hdoc Hpos. unfold salary_field, dict_contains, dict_item. rewrite Hdoc. simpl.
  unfold Salary_new. destruct (Z.ltb_spec (value salary) 0); [lia|].
  now destruct salary.
Qed.

Lemma JobMapper_round_trip `{PyLib} (job : Job.t) (salary : Salary) :
  Forall valid_skill (Job.top_skills job) ->
  Forall valid_skill (Job.other_skills job) ->
  Job.max_salary job = Some salary -> (0 <= value salary)%Z ->
  UUID_of_str (UUID_str (Job.id job)) = Ok (Job.id job) ->
  JobMapper.to_domain (UUID_str (Job.id job)) (JobMapper.to_document job) = Ok job.
Proof.
  intros Htop Hother Hsal Hpos Hid.
  destruct job as [id top other sens sal]. simpl in *. subst sal.
  rewrite (JobMapper_to_domain_seniority_strings _ _ (SeniorityOps.to_str <$> sens)).
  - rewrite (skills_field_skill_strs _ "top_skills" top); [|reflexivity|assumption].
    rewrite (skills_field_skill_strs _ "other_skills" other); [|reflexivity|assumption].
    rewrite (salary_field_present _ "max_salary" salary); [|reflexivity|assumption].
    unfold uuid_of_doc_id. rewrite Hid. simpl.
    now rewrite recognized_seniorities_to_str.
  - unfold JobMapper.to_document. simpl.
    rewrite lookup_insert_ne by discriminate. rewrite lookup_insert_eq.
    now rewrite <- list_fmap_compose.
Qed.

Lemma seniority_field_present (doc : gmap string pyval) (seniority : Seniority) :
  doc !! "seniority" = Some (PStr (SeniorityOps.to_str seniority)) ->
  CandidateMapper.seniority_field doc = Ok (Some seniority).
Proof.
  intros Hdoc. unfold CandidateMapper.seniority_field, dict_contains, dict_item.
  rewrite Hdoc. simpl. unfold SeniorityOps.from_string, SeniorityOps.to_str.
  rewrite str_lower_SeniorityLevel_value.
  rewrite (proj2 (SeniorityLevel_of_value_Some _ (level seniority)) eq_refl).
  now destruct seniority.
Qed.

Lemma CandidateMapper_round_trip `{PyLib}
    (candidate : Candidate.t) (seniority : Seniority) (salary : Salary) :
  Forall valid_skill (Candidate.top_skills candidate) ->
  Forall valid_skill (Candidate.other_skills candidate) ->
  Candidate.seniority candidate = Some seniority ->
  Candidate.salary_expectation candidate = Some salary -> (0 <= value salary)%Z ->
  UUID_of_str (UUID_str (Candidate.id candidate)) = Ok (Candidate.id candidate) ->
  CandidateMapper.to_domain (UUID_str (Candidate.id candidate))
    (CandidateMapper.to_document candidate) = Ok candidate.
Proof.
  intros Htop Hother Hsen Hsal Hpos Hid.
  destruct candidate as [id top other sen sal]. simpl in *. subst sen sal.
  unfold CandidateMapper.to_domain.
  rewrite (skills_field_skill_strs _ "top_skills" top); [|reflexivity|assumption].
  rewrite (skills_field_skill_strs _ "other_skills" other); [|reflexivity|assumption].
  rewrite (seniority_field_present _ seniority); [|reflexivity].
  rewrite (salary_field_present _ "salary_expectation" salary); [|reflexivity|assumption].
  unfold uuid_of_doc_id. rewrite Hid. reflexivity.
Qed.


(** * Further properties of the code *)

(** ** Compatibility predicates *)

(** The job's and the candidate's compatibility predicates agree: asking
    the job about the candidate's salary expectation or seniority gives the
    answer the candidate gives about the job's maximum salary or
    seniorities. *)
Theorem compatibility_is_symmetric (job : Job.t) (candidate : Candidate.t) :
  Job.matches_candidate_salary job (Candidate.salary_expectation candidate)
  = Candidate.matches_job_salary candidate (Job.max_salary job) /\
  Job.matches_candidate_seniority job (Candidate.seniority candidate)
  = Candidate.matches_job_seniority candidate (Job.seniorities job).
Proof.
  unfold Job.matches_candidate_salary, Candidate.matches_job_salary,
         Job.matches_candidate_seniority, Candidate.matches_job_seniority.
  split.
  - destruct (Job.max_salary job), (Candidate.salary_expectation candidate); reflexivity.
  - destruct (Job.seniorities job), (Candidate.seniority candidate); reflexivity.
Qed.

(** A missing salary on either side never matches, and a job that meets an
    expectation meets every lower one. *)
Theorem salary_match_monotone (job : Job.t) (expectation lower : Salary) :
  Job.matches_candidate_salary job None = false /\
  (Job.max_salary job = None ->
   Job.matches_candidate_salary job (Some expectation) = false) /\
  (Job.matches_candidate_salary job (Some expectation) = true ->
   (value lower <= value expectation)%Z ->
   Job.matches_candidate_salary job (Some lower) = true).
Proof.
  unfold Job.matches_candidate_salary.
  destruct (Job.max_salary job) as [m|]; repeat split; try discriminate.
  intros H Hle. apply Z.leb_le in H. apply Z.leb_le. lia.
Qed.

Lemma salary_match_monotone_witness :
  Job.matches_candidate_salary
    (Job.mk (mkUUID 1) [] [] [] (Some (mkSalary 85000))) (Some (mkSalary 70000)) = true.
Proof.
  refine (proj2 (proj2
    (salary_match_monotone (Job.mk (mkUUID 1) [] [] [] (Some (mkSalary 85000)))
       (mkSalary 80000) (mkSalary 70000))) _ _).
  - reflexivity.
  - simpl. lia.
Defined.

(** ** The score *)

Lemma weighted_score_spec_range sk se sa x ms ml :
  (0 <= x)%Q -> (x <= 1)%Q ->
  (0 <= weighted_score_spec sk se sa x ms ml)%Q /\
  (weighted_score_spec sk se sa x ms ml <= 1)%Q.
Proof.
  intros H0 H1. unfold weighted_score_spec, criterion.
  destruct sk, se, sa, ms, ml; cbn -[Qplus Qmult Qdiv Qle]; split;
    first [ discriminate
          | apply Qle_shift_div_l; [reflexivity | lra]
          | apply Qle_shift_div_r; [reflexivity | lra] ].
Qed.

(** The score lies between 0 and 1 for every job, candidate and filter
    dictionary. *)
Theorem calculate_job_candidate_match_range
    (job : Job.t) (candidate : Candidate.t) (filters : gmap string bool) :
  (0 <= MatchingService.calculate_job_candidate_match job candidate filters)%Q /\
  (MatchingService.calculate_job_candidate_match job candidate filters <= 1)%Q.
Proof.
  rewrite calculate_job_candidate_match_spec.
  apply weighted_score_spec_range; apply Job_skill_match_score_bounds.
Qed.

(** An enabled salary or seniority filter that does not match leaves the
    score exactly as it is with that filter disabled. *)
Theorem mismatched_filter_counts_as_disabled
    (job : Job.t) (candidate : Candidate.t) (filters : gmap string bool) :
  (Job.matches_candidate_salary job (Candidate.salary_expectation candidate) = false ->
   MatchingService.calculate_job_candidate_match job candidate filters
   = MatchingService.calculate_job_candidate_match job candidate
       (<["salary_match" := false]> filters)) /\
  (Job.matches_candidate_seniority job (Candidate.seniority candidate) = false ->
   MatchingService.calculate_job_candidate_match job candidate filters
   = MatchingService.calculate_job_candidate_match job candidate
       (<["seniority_match" := false]> filters)).
Proof.
  unfold MatchingService.calculate_job_candidate_match. split; intros Hm.
  - rewrite dict_get_insert_eq, !dict_get_insert_ne by discriminate.
    rewrite Hm, andb_false_r. reflexivity.
  - rewrite dict_get_insert_eq, !dict_get_insert_ne by discriminate.
    rewrite Hm, andb_false_r. reflexivity.
Qed.

Lemma mismatched_filter_counts_as_disabled_witness :
  let job := Job.mk (mkUUID 1) [mkSkill "Python"] [] [] (Some (mkSalary 50000)) in
  let candidate := Candidate.mk (mkUUID 2) [mkSkill "python"] [] None (Some (mkSalary 60000)) in
  let filters : gmap string bool :=
    <["salary_match" := true]> (<["top_skill_match" := true]> ∅) in
  MatchingService.calculate_job_candidate_match job candidate filters
  = MatchingService.calculate_job_candidate_match job candidate
      (<["salary_match" := false]> filters).
Proof.
  intros job candidate filters.
  exact (proj1 (mismatched_filter_counts_as_disabled job candidate filters) eq_refl).
Defined.

(** With the skill filter off the score is 0 or 1, and it is 1 exactly when
    an enabled seniority or salary filter matches. *)
Theorem score_without_skill_filter
    (job : Job.t) (candidate : Candidate.t) (filters : gmap string bool) :
  dict_get filters "top_skill_match" false = false ->
  let score := MatchingService.calculate_job_candidate_match job candidate filters in
  let some_match :=
    dict_get filters "seniority_match" false
      && Job.matches_candidate_seniority job (Candidate.seniority candidate)
    || dict_get filters "salary_match" false
      && Job.matches_candidate_salary job (Candidate.salary_expectation candidate) in
  (some_match = true -> (score == 1)%Q) /\
  (some_match = false -> (score == 0)%Q).
Proof.
  intros Hoff score some_match. subst score some_match.
  rewrite calculate_job_candidate_match_spec, Hoff.
  unfold weighted_score_spec, criterion.
  destruct (dict_get filters "seniority_match" false),
    (dict_get filters "salary_match" false),
    (Job.matches_candidate_seniority job (Candidate.seniority candidate)),
    (Job.matches_candidate_salary job (Candidate.salary_expectation candidate));
    split; intros E; try discriminate E; reflexivity.
Qed.

Lemma score_without_skill_filter_witness :
  (MatchingService.calculate_job_candidate_match
     (Job.mk (mkUUID 1) [mkSkill "Python"] [] [mkSeniority SENIOR] None)
     (Candidate.mk (mkUUID 2) [mkSkill "Go"] [] (Some (mkSeniority SENIOR)) None)
     (<["salary_match" := true]> (<["seniority_match" := true]> ∅)) == 1)%Q.
Proof.
  refine (proj1 (score_without_skill_filter
     (Job.mk (mkUUID 1) [mkSkill "Python"] [] [mkSeniority SENIOR] None)
     (Candidate.mk (mkUUID 2) [mkSkill "Go"] [] (Some (mkSeniority SENIOR)) None)
     (<["salary_match" := true]> (<["seniority_match" := true]> ∅)) _) _);
    vm_compute; reflexivity.
Defined.

(** ** The two overlap ratios *)

Lemma filter_length_le_impl {A} (p q : A -> bool) (l : list A) :
  (forall x, p x = true -> q x = true) ->
  (length (List.filter p l) <= length (List.filter q l))%nat.
Proof.
  intros Himp. induction l as [|x l IH]; simpl; [lia|].
  destruct (p x) eqn:Ep.
  - rewrite (Himp x Ep). simpl. lia.
  - destruct (q x); simpl; lia.
Qed.

Lemma filter_ext_all {A} (p q : A -> bool) (l : list A) :
  (forall x, p x = q x) -> List.filter p l = List.filter q l.
Proof.
  intros Hext. induction l as [|x l IH]; simpl; [reflexivity|].
  now rewrite Hext, IH.
Qed.

Lemma len_div_le m m' n :
  (m <= m')%nat -> (0 < n)%nat -> (len_div m n <= len_div m' n)%Q.
Proof.
  intros Hm Hn. unfold len_div, Qdiv.
  apply Qmult_le_compat_r.
  - rewrite <- Zle_Qle. lia.
  - apply Qinv_le_0_compat. change 0%Q with (inject_Z 0). rewrite <- Zle_Qle. lia.
Qed.

(** Scored from the candidate's side, where the secondary skills count too,
    the overlap is never smaller than scored from the job's side; for a
    candidate without secondary skills the two ratios are the same. *)
Theorem candidate_ratio_dominates_job_ratio (job : Job.t) (candidate : Candidate.t) :
  (Job.skill_match_score job (Candidate.top_skills candidate)
   <= Candidate.skill_match_score candidate (Job.top_skills job))%Q /\
  (Candidate.other_skills candidate = [] ->
   Job.skill_match_score job (Candidate.top_skills candidate)
   = Candidate.skill_match_score candidate (Job.top_skills job)).
Proof.
  unfold Job.skill_match_score, Candidate.skill_match_score.
  destruct (Job.top_skills job) as [|a A] eqn:EA; [split; [discriminate|reflexivity]|].
  destruct (Candidate.top_skills candidate) as [|t T] eqn:ET;
    [split; [discriminate|reflexivity]|].
  simpl list_is_empty. cbv iota. simpl orb. cbv iota. split.
  - apply len_div_le; [|simpl; lia].
    unfold set_intersection. apply filter_length_le_impl.
    intros x. rewrite !skill_set_mem, skill_mem_app. intros ->. reflexivity.
  - intros ->. now rewrite app_nil_r.
Qed.

Lemma candidate_ratio_dominates_job_ratio_witness :
  let job := Job.mk (mkUUID 1) [mkSkill "Python"; mkSkill "AWS"] [] [] None in
  let candidate := Candidate.mk (mkUUID 2) [mkSkill "python"] [] None None in
  Job.skill_match_score job (Candidate.top_skills candidate)
  = Candidate.skill_match_score candidate (Job.top_skills job).
Proof.
  intros job candidate.
  exact (proj2 (candidate_ratio_dominates_job_ratio job candidate) eq_refl).
Defined.

(** The overlap ratio looks at the counterpart's skills only through
    membership up to letter case: two lists holding the same skills, in any
    order, with any repetition and in any letter case, give the same ratio. *)
Theorem skill_match_score_membership_only (job : Job.t) (B B' : list Skill) :
  (forall x, skill_mem x B = skill_mem x B') ->
  Job.skill_match_score job B = Job.skill_match_score job B'.
Proof.
  intros Hmem. unfold Job.skill_match_score.
  assert (list_is_empty B = list_is_empty B') as ->.
  { destruct B as [|b B], B' as [|b' B']; try reflexivity.
    - specialize (Hmem b'). simpl in Hmem.
      rewrite SkillOps_eqb_refl in Hmem. discriminate.
    - specialize (Hmem b). simpl in Hmem.
      rewrite SkillOps_eqb_refl in Hmem. discriminate. }
  destruct (list_is_empty (Job.top_skills job) || list_is_empty B'); [reflexivity|].
  unfold set_intersection.
  rewrite (filter_ext_all _ (fun x => skill_mem x (skill_set B'))); [reflexivity|].
  intros x. now rewrite !skill_set_mem.
Qed.

Lemma skill_match_score_membership_only_witness :
  let job := Job.mk (mkUUID 1) [mkSkill "Python"; mkSkill "AWS"] [] [] None in
  Job.skill_match_score job [mkSkill "aws"; mkSkill "Go"]
  = Job.skill_match_score job [mkSkill "GO"; mkSkill "AWS"; mkSkill "go"].
Proof.
  intros job.
  refine (skill_match_score_membership_only job
            [mkSkill "aws"; mkSkill "Go"] [mkSkill "GO"; mkSkill "AWS"; mkSkill "go"] _).
  intros x. unfold skill_mem, SkillOps.eqb. cbn [existsb name].
  change (str_lower "aws") with "aws". change (str_lower "AWS") with "aws".
  change (str_lower "Go") with "go". change (str_lower "GO") with "go".
  change (str_lower "go") with "go".
  destruct (String.eqb (str_lower (name x)) "aws"),
           (String.eqb (str_lower (name x)) "go"); reflexivity.
Defined.

(** ** Value objects *)

Lemma ascii_lower_idem c : ascii_lower (ascii_lower c) = ascii_lower c.
Proof. destruct c as [[] [] [] [] [] [] [] []]; reflexivity. Qed.

Lemma str_lower_idem s : str_lower (str_lower s) = str_lower s.
Proof.
  induction s as [|c s IH]; simpl; [reflexivity|].
  now rewrite ascii_lower_idem, IH.
Qed.

Lemma from_string_to_str seniority :
  SeniorityOps.from_string (SeniorityOps.to_str seniority) = Ok seniority.
Proof. destruct seniority as [[]]; reflexivity. Qed.

(** A value object printed with [str] and built again is the same value:
    this holds for every skill a constructor returned, for every seniority
    and for every salary a constructor returned.  [Seniority.from_string]
    reads its argument without regard to letter case. *)
Theorem value_objects_rebuild_from_str
    (s : string) (skill : Skill) (seniority : Seniority) (v : Z) (salary : Salary) :
  (Skill_new s = Ok skill -> Skill_new (SkillOps.to_str skill) = Ok skill) /\
  SeniorityOps.from_string (SeniorityOps.to_str seniority) = Ok seniority /\
  (Salary_new v = Ok salary -> value salary = v /\ Salary_new (value salary) = Ok salary) /\
  (SeniorityOps.from_string s = Ok seniority
   <-> SeniorityOps.from_string (str_lower s) = Ok seniority).
Proof.
  split; [|split; [|split]].
  - apply Skill_new_valid.
  - apply from_string_to_str.
  - unfold Salary_new. destruct (v <? 0)%Z eqn:E; [discriminate|].
    intros [= <-]. simpl. now rewrite E.
  - unfold SeniorityOps.from_string. rewrite str_lower_idem.
    destruct (SeniorityLevel_of_value (str_lower s)); split; congruence.
Qed.

Lemma value_objects_rebuild_from_str_witness :
  Skill_new (SkillOps.to_str (mkSkill "Machine Learning")) = Ok (mkSkill "Machine Learning").
Proof.
  exact (proj1 (value_objects_rebuild_from_str "  Machine Learning " (mkSkill "Machine Learning")
                  (mkSeniority LEAD) 0 (mkSalary 0)) eq_refl).
Defined.

(** Equality of skills is an equivalence relation. *)
Theorem skill_equality_is_equivalence (a b c : Skill) :
  SkillOps.eqb a a = true /\
  SkillOps.eqb a b = SkillOps.eqb b a /\
  (SkillOps.eqb a b = true -> SkillOps.eqb b c = true -> SkillOps.eqb a c = true).
Proof.
  split; [apply SkillOps_eqb_refl|]. split; [apply SkillOps_eqb_sym|].
  apply SkillOps_eqb_trans.
Qed.

Lemma skill_equality_is_equivalence_witness :
  SkillOps.eqb (mkSkill "AWS") (mkSkill "aws") = true.
Proof.
  exact (proj2 (proj2 (skill_equality_is_equivalence
                         (mkSkill "AWS") (mkSkill "Aws") (mkSkill "aws")))
           eq_refl eq_refl).
Defined.

(** ** Decoded entities *)

Lemma comprehension_Skill_valid items skills :
  comprehension Skill_of_value items = Ok skills -> Forall valid_skill skills.
Proof.
  revert skills. induction items as [|v items IH]; intros skills; simpl.
  - intros [= <-]. constructor.
  - destruct (Skill_of_value v) as [k|e] eqn:Ek; [|discriminate]. simpl.
    destruct (comprehension Skill_of_value items) as [ks|e]; [|discriminate]. simpl.
    intros [= <-]. constructor; [|now apply IH].
    destruct v; try discriminate. simpl in Ek. now apply Skill_new_valid in Ek.
Qed.

Lemma skills_field_valid (doc : gmap string pyval) key skills :
  skills_field doc key = Ok skills -> Forall valid_skill skills.
Proof.
  unfold skills_field. destruct (py_iter _) as [items|e]; [|discriminate].
  apply comprehension_Skill_valid.
Qed.

Lemma salary_field_nonneg (doc : gmap string pyval) key salary :
  salary_field doc key = Ok (Some salary) -> (0 <= value salary)%Z.
Proof.
  unfold salary_field. destruct (dict_contains doc key); [|discriminate].
  destruct (dict_item doc key) as [v|e]; [|discriminate]. simpl.
  destruct v; try discriminate. simpl. unfold Salary_new.
  destruct (Z.ltb_spec z 0); [discriminate|]. simpl. intros [= <-]. exact H.
Qed.

Lemma valid_skill_name skill :
  valid_skill skill -> str_strip (name skill) = name skill /\ name skill <> "".
Proof.
  unfold valid_skill, Skill_new.
  destruct (str_is_empty (str_strip (name skill))) eqn:E; [discriminate|].
  intros [= H]. destruct skill as [n]. simpl in *. injection H as H.
  split; [exact H|]. intros ->. rewrite H in E. discriminate.
Qed.

Lemma JobMapper_to_domain_Ok `{PyLib} doc_id (doc : gmap string pyval) job :
  JobMapper.to_domain doc_id doc = Ok job ->
  skills_field doc "top_skills" = Ok (Job.top_skills job) /\
  skills_field doc "other_skills" = Ok (Job.other_skills job) /\
  salary_field doc "max_salary" = Ok (Job.max_salary job) /\
  uuid_of_doc_id doc_id = Ok (Job.id job).
Proof.
  unfold JobMapper.to_domain.
  destruct (skills_field doc "top_skills") as [top|e]; [|discriminate].
  destruct (skills_field doc "other_skills") as [other|e]; [|discriminate].
  destruct (py_iter _) as [items|e]; [|discriminate]. simpl.
  destruct (seniorities_loop items []) as [sens|e]; [|discriminate]. simpl.
  destruct (salary_field doc "max_salary") as [sal|e]; [|discriminate]. simpl.
  destruct (uuid_of_doc_id doc_id) as [u|e]; [|discriminate]. simpl.
  intros [= <-]. repeat split.
Qed.

Lemma CandidateMapper_to_domain_Ok `{PyLib} doc_id (doc : gmap string pyval) candidate :
  CandidateMapper.to_domain doc_id doc = Ok candidate ->
  skills_field doc "top_skills" = Ok (Candidate.top_skills candidate) /\
  skills_field doc "other_skills" = Ok (Candidate.other_skills candidate) /\
  salary_field doc "salary_expectation" = Ok (Candidate.salary_expectation candidate) /\
  uuid_of_doc_id doc_id = Ok (Candidate.id candidate).
Proof.
  unfold CandidateMapper.to_domain.
  destruct (skills_field doc "top_skills") as [top|e]; [|discriminate].
  destruct (skills_field doc "other_skills") as [other|e]; [|discriminate]. simpl.
  destruct (CandidateMapper.seniority_field doc) as [sen|e]; [|discriminate]. simpl.
  destruct (salary_field doc "salary_expectation") as [sal|e]; [|discriminate]. simpl.
  destruct (uuid_of_doc_id doc_id) as [u|e]; [|discriminate]. simpl.
  intros [= <-]. repeat split.
Qed.

(** Every entity that [to_domain] returns is well formed: each skill name
    is stripped and not empty, and a salary, when present, is not negative. *)
Theorem to_domain_entities_are_well_formed `{PyLib}
    (doc_id : string) (doc : gmap string pyval) (job : Job.t) (candidate : Candidate.t) :
  let stripped skill := str_strip (name skill) = name skill /\ name skill <> "" in
  (JobMapper.to_domain doc_id doc = Ok job ->
   Forall stripped (Job.top_skills job) /\ Forall stripped (Job.other_skills job) /\
   (forall salary, Job.max_salary job = Some salary -> (0 <= value salary)%Z)) /\
  (CandidateMapper.to_domain doc_id doc = Ok candidate ->
   Forall stripped (Candidate.top_skills candidate) /\
   Forall stripped (Candidate.other_skills candidate) /\
   (forall salary, Candidate.salary_expectation candidate = Some salary ->
      (0 <= value salary)%Z)).
Proof.
  intros stripped. split; intros Hdom.
  - apply JobMapper_to_domain_Ok in Hdom as (Ht & Ho & Hs & _).
    apply skills_field_valid in Ht, Ho.
    repeat split.
    + eapply Forall_impl; [exact Ht|]. intros k. apply valid_skill_name.
    + eapply Forall_impl; [exact Ho|]. intros k. apply valid_skill_name.
    + intros salary E. rewrite E in Hs. now apply salary_field_nonneg in Hs.
  - apply CandidateMapper_to_domain_Ok in Hdom as (Ht & Ho & Hs & _).
    apply skills_field_valid in Ht, Ho.
    repeat split.
    + eapply Forall_impl; [exact Ht|]. intros k. apply valid_skill_name.
    + eapply Forall_impl; [exact Ho|]. intros k. apply valid_skill_name.
    + intros salary E. rewrite E in Hs. now apply salary_field_nonneg in Hs.
Qed.

Lemma to_domain_entities_are_well_formed_witness :
  Forall (fun skill => str_strip (name skill) = name skill /\ name skill <> "")
         [mkSkill "Python"; mkSkill "AWS"].
Proof.
  exact (proj1 (proj1 (@to_domain_entities_are_well_formed RefLib.lib "1"
                         job_with_a_bad_seniority
                         (Job.mk (mkUUID 1) [mkSkill "Python"; mkSkill "AWS"] []
                                 [mkSeniority MIDLEVEL; mkSeniority SENIOR]
                                 (Some (mkSalary 85000)))
                         (Candidate.mk (mkUUID 1) [] [] None None))
                      eq_refl)).
Defined.

(** With every optional field present, an entity whose skills and salary
    went through their constructors comes back unchanged from its own
    document, provided the library reads the printed id back. *)
Theorem mapper_round_trip_with_all_fields `{PyLib}
    (job : Job.t) (candidate : Candidate.t) (seniority : Seniority)
    (max_salary salary_expectation : Salary) :
  (Forall valid_skill (Job.top_skills job) ->
   Forall valid_skill (Job.other_skills job) ->
   Job.max_salary job = Some max_salary -> (0 <= value max_salary)%Z ->
   UUID_of_str (UUID_str (Job.id job)) = Ok (Job.id job) ->
   JobMapper.to_domain (UUID_str (Job.id job)) (JobMapper.to_document job) = Ok job) /\
  (Forall valid_skill (Candidate.top_skills candidate) ->
   Forall valid_skill (Candidate.other_skills candidate) ->
   Candidate.seniority candidate = Some seniority ->
   Candidate.salary_expectation candidate = Some salary_expectation ->
   (0 <= value salary_expectation)%Z ->
   UUID_of_str (UUID_str (Candidate.id candidate)) = Ok (Candidate.id candidate) ->
   CandidateMapper.to_domain (UUID_str (Candidate.id candidate))
     (CandidateMapper.to_document candidate) = Ok candidate).
Proof.
  split.
  - apply JobMapper_round_trip.
  - apply CandidateMapper_round_trip.
Qed.

Lemma mapper_round_trip_with_all_fields_witness :
  let job := Job.mk (mkUUID 255) [mkSkill "Python"; mkSkill "AWS"] [mkSkill "Git"]
                    [mkSeniority MIDLEVEL; mkSeniority SENIOR] (Some (mkSalary 85000)) in
  @JobMapper.to_domain RefLib.lib (@UUID_str RefLib.lib (Job.id job))
    (JobMapper.to_document job) = Ok job.
Proof.
  intros job.
  refine (proj1 (@mapper_round_trip_with_all_fields RefLib.lib job
                   (Candidate.mk (mkUUID 1) [] [] None None) (mkSeniority SENIOR)
                   (mkSalary 85000) (mkSalary 0)) _ _ eq_refl _ _).
  - repeat constructor.
  - repeat constructor.
  - simpl. lia.
  - vm_compute. reflexivity.
Defined.

(** An entity that [to_domain] returned with its optional fields present is
    a fixed point of encoding and decoding: its document decodes to itself. *)
Theorem decoded_entity_round_trips `{PyLib}
    (doc_id : string) (doc : gmap string pyval) (job : Job.t) (candidate : Candidate.t) :
  (JobMapper.to_domain doc_id doc = Ok job ->
   Job.max_salary job <> None ->
   UUID_of_str (UUID_str (Job.id job)) = Ok (Job.id job) ->
   JobMapper.to_domain (UUID_str (Job.id job)) (JobMapper.to_document job) = Ok job) /\
  (CandidateMapper.to_domain doc_id doc = Ok candidate ->
   Candidate.seniority candidate <> None ->
   Candidate.salary_expectation candidate <> None ->
   UUID_of_str (UUID_str (Candidate.id candidate)) = Ok (Candidate.id candidate) ->
   CandidateMapper.to_domain (UUID_str (Candidate.id candidate))
     (CandidateMapper.to_document candidate) = Ok candidate).
Proof.
  split.
  - intros Hdom Hsal Hid.
    apply JobMapper_to_domain_Ok in Hdom as (Ht & Ho & Hs & _).
    destruct (Job.max_salary job) as [salary|] eqn:E; [|congruence].
    apply (JobMapper_round_trip job salary); auto.
    + now apply skills_field_valid in Ht.
    + now apply skills_field_valid in Ho.
    + now apply salary_field_nonneg in Hs.
  - intros Hdom Hsen Hsal Hid.
    apply CandidateMapper_to_domain_Ok in Hdom as (Ht & Ho & Hs & _).
    destruct (Candidate.seniority candidate) as [seniority|] eqn:Es; [|congruence].
    destruct (Candidate.salary_expectation candidate) as [salary|] eqn:E; [|congruence].
    apply (CandidateMapper_round_trip candidate seniority salary); auto.
    + now apply skills_field_valid in Ht.
    + now apply skills_field_valid in Ho.
    + now apply salary_field_nonneg in Hs.
Qed.

Lemma decoded_entity_round_trips_witness :
  let job := Job.mk (mkUUID 1) [mkSkill "Python"; mkSkill "AWS"] []
                    [mkSeniority MIDLEVEL; mkSeniority SENIOR] (Some (mkSalary 85000)) in
  @JobMapper.to_domain RefLib.lib (@UUID_str RefLib.lib (Job.id job))
    (JobMapper.to_document job) = Ok job.
Proof.
  intros job.
  refine (proj1 (@decoded_entity_round_trips RefLib.lib "1" job_with_a_bad_seniority job
                   (Candidate.mk (mkUUID 1) [] [] None None)) _ _ _).
  - vm_compute. reflexivity.
  - discriminate.
  - vm_compute. reflexivity.
Defined.

(** ** The repositories and the match operation *)

Lemma dict_is_empty_empty {V} : dict_is_empty (∅ : gmap string V) = true.
Proof. unfold dict_is_empty. now rewrite map_size_empty. Qed.

(** A source that the index does not hold, or holds as an empty document,
    is reported as not found: [get_by_id] answers [None] and the repository
    raises the ValueError "... with ID ... not found", whatever the filters. *)
Theorem missing_document_is_not_found `{PyLib}
    (es_client : ElasticsearchClient) (doc_id : string) (filters : gmap string bool) :
  (get_document es_client JOBS_INDEX doc_id = None \/
   get_document es_client JOBS_INDEX doc_id = Some ∅ ->
   ElasticsearchJobRepository.get_by_id es_client doc_id = Ok None /\
   ElasticsearchCandidateRepository.find_matches_for_job es_client doc_id filters
   = Raise (ValueError ("Job with ID " ++ doc_id ++ " not found"))) /\
  (get_document es_client CANDIDATES_INDEX doc_id = None \/
   get_document es_client CANDIDATES_INDEX doc_id = Some ∅ ->
   ElasticsearchCandidateRepository.get_by_id es_client doc_id = Ok None /\
   ElasticsearchJobRepository.find_matches_for_candidate es_client doc_id filters
   = Raise (ValueError ("Candidate with ID " ++ doc_id ++ " not found"))).
Proof.
  split; intros Hdoc.
  - assert (job_get_by_id es_client doc_id = Ok None) as E.
    { unfold job_get_by_id. destruct Hdoc as [-> | ->]; [reflexivity|].
      now rewrite dict_is_empty_empty. }
    split; [exact E|].
    unfold ElasticsearchCandidateRepository.find_matches_for_job. now rewrite E.
  - assert (candidate_get_by_id es_client doc_id = Ok None) as E.
    { unfold candidate_get_by_id. destruct Hdoc as [-> | ->]; [reflexivity|].
      now rewrite dict_is_empty_empty. }
    split; [exact E|].
    unfold ElasticsearchJobRepository.find_matches_for_candidate. now rewrite E.
Qed.

Lemma missing_document_is_not_found_witness :
  @ElasticsearchCandidateRepository.find_matches_for_job RefLib.lib
    index_without_salaries "42" only_salary_match
  = Raise (ValueError "Job with ID 42 not found").
Proof.
  exact (proj2 (proj1 (@missing_document_is_not_found RefLib.lib
                         index_without_salaries "42" only_salary_match)
                      (or_introl eq_refl))).
Defined.

Lemma find_matching_candidates_for_job_repository `{PyLib} es_client job_id filters :
  MatchingService.find_matching_candidates_for_job
    (ElasticsearchJobRepository.make es_client)
    (ElasticsearchCandidateRepository.make es_client) job_id filters
  = ElasticsearchCandidateRepository.find_matches_for_job es_client job_id filters.
Proof.
  unfold MatchingService.find_matching_candidates_for_job. simpl.
  unfold ElasticsearchJobRepository.get_by_id,
         ElasticsearchCandidateRepository.find_matches_for_job.
  destruct (job_get_by_id es_client job_id) as [[job|]|e] eqn:E; simpl;
    rewrite ?E; reflexivity.
Qed.

Lemma find_matching_jobs_for_candidate_repository `{PyLib} es_client candidate_id filters :
  MatchingService.find_matching_jobs_for_candidate
    (ElasticsearchCandidateRepository.make es_client)
    (ElasticsearchJobRepository.make es_client) candidate_id filters
  = ElasticsearchJobRepository.find_matches_for_candidate es_client candidate_id filters.
Proof.
  unfold MatchingService.find_matching_jobs_for_candidate. simpl.
  unfold ElasticsearchCandidateRepository.get_by_id,
         ElasticsearchJobRepository.find_matches_for_candidate.
  destruct (candidate_get_by_id es_client candidate_id) as [[candidate|]|e] eqn:E; simpl;
    rewrite ?E; reflexivity.
Qed.

(** Over the two Elasticsearch repositories of one client, the domain
    service's orchestration functions return exactly what the repository's
    own match function returns, errors included: the fetch they do first
    changes nothing. *)
Theorem find_matching_is_the_repository_call `{PyLib}
    (es_client : ElasticsearchClient) (doc_id : string) (filters : gmap string bool) :
  MatchingService.find_matching_candidates_for_job
    (ElasticsearchJobRepository.make es_client)
    (ElasticsearchCandidateRepository.make es_client) doc_id filters
  = ElasticsearchCandidateRepository.find_matches_for_job es_client doc_id filters /\
  MatchingService.find_matching_jobs_for_candidate
    (ElasticsearchCandidateRepository.make es_client)
    (ElasticsearchJobRepository.make es_client) doc_id filters
  = ElasticsearchJobRepository.find_matches_for_candidate es_client doc_id filters.
Proof.
  split.
  - apply find_matching_candidates_for_job_repository.
  - apply find_matching_jobs_for_candidate_repository.
Qed.

(** A repository builds no clause exactly when every enabled filter finds
    its field missing on the source (no salary, no top skill, no seniority);
    it is then that it answers the empty list without searching. *)
Theorem should_queries_empty_iff
    (candidate : Candidate.t) (job : Job.t) (filters : gmap string bool) :
  (ElasticsearchJobRepository.should_queries candidate filters = [] <->
   (dict_get filters "salary_match" false = false \/
    Candidate.salary_expectation candidate = None) /\
   (dict_get filters "top_skill_match" false = false \/
    Candidate.top_skills candidate = []) /\
   (dict_get filters "seniority_match" false = false \/
    Candidate.seniority candidate = None)) /\
  (ElasticsearchCandidateRepository.should_queries job filters = [] <->
   (dict_get filters "salary_match" false = false \/ Job.max_salary job = None) /\
   (dict_get filters "top_skill_match" false = false \/ Job.top_skills job = []) /\
   (dict_get filters "seniority_match" false = false \/ Job.seniorities job = [])).
Proof.
  split.
  - unfold ElasticsearchJobRepository.should_queries.
    destruct (dict_get filters "salary_match" false),
      (dict_get filters "top_skill_match" false),
      (dict_get filters "seniority_match" false),
      (Candidate.salary_expectation candidate),
      (Candidate.top_skills candidate),
      (Candidate.seniority candidate); simpl;
      (split; [intros E; try discriminate E; auto
              | intros (H1 & H2 & H3); try reflexivity;
                destruct H1; try discriminate;
                destruct H2; try discriminate;
                destruct H3; discriminate]).
  - unfold ElasticsearchCandidateRepository.should_queries.
    destruct (dict_get filters "salary_match" false),
      (dict_get filters "top_skill_match" false),
      (dict_get filters "seniority_match" false),
      (Job.max_salary job),
      (Job.top_skills job),
      (Job.seniorities job); simpl;
      (split; [intros E; try discriminate E; auto
              | intros (H1 & H2 & H3); try reflexivity;
                destruct H1; try discriminate;
                destruct H2; try discriminate;
                destruct H3; discriminate]).
Qed.

Lemma some_filter_enabled_values filters :
  some_filter_enabled filters = true ->
  forallb negb (dict_values (filters_dict filters)) = false.
Proof.
  destruct filters as [[] [] []]; intros E; try discriminate E;
    vm_compute; reflexivity.
Qed.

Lemma find_matches_filters_dict self doc_id doc_type filters :
  some_filter_enabled filters = true ->
  MatchingApplicationService.find_matches self doc_id doc_type filters
  = (matches ←
       (if String.eqb doc_type "job" then
          MatchingService.find_matching_candidates_for_job
            (MatchingApplicationService.job_repository self)
            (MatchingApplicationService.candidate_repository self)
            doc_id (filters_dict filters)
        else if String.eqb doc_type "candidate" then
          MatchingService.find_matching_jobs_for_candidate
            (MatchingApplicationService.candidate_repository self)
            (MatchingApplicationService.job_repository self)
            doc_id (filters_dict filters)
        else Raise (ValueError ("Invalid document type: " ++ doc_type)));
     Ok (matches_to_dtos matches)).
Proof.
  intros E. apply some_filter_enabled_values in E.
  unfold MatchingApplicationService.find_matches.
  fold (filters_dict filters). rewrite E. reflexivity.
Qed.

(** The match operation on the Elasticsearch repositories returns the hits
    of one search, in the order and with the ids and scores the index gave
    them: for a source that decodes, and filters of which one is enabled,
    the result is the list of hits of the query made of the repository's
    clauses with [minimum_should_match] 1 on the counterpart index, and the
    empty list when there is no clause. *)
Theorem find_matches_returns_search_hits `{PyLib}
    (es_client : ElasticsearchClient) (doc_id : string) (filters : MatchFiltersDTO.t)
    (job : Job.t) (candidate : Candidate.t) :
  some_filter_enabled filters = true ->
  (ElasticsearchJobRepository.get_by_id es_client doc_id = Ok (Some job) ->
   let clauses := ElasticsearchCandidateRepository.should_queries job (filters_dict filters) in
   MatchingApplicationService.find_matches
     (create_matching_application_service es_client) doc_id "job" filters
   = Ok (if list_is_empty clauses then []
         else matches_to_dtos
                (hits_to_matches (search es_client CANDIDATES_INDEX (mkQuery clauses 1))))) /\
  (ElasticsearchCandidateRepository.get_by_id es_client doc_id = Ok (Some candidate) ->
   let clauses := ElasticsearchJobRepository.should_queries candidate (filters_dict filters) in
   MatchingApplicationService.find_matches
     (create_matching_application_service es_client) doc_id "candidate" filters
   = Ok (if list_is_empty clauses then []
         else matches_to_dtos
                (hits_to_matches (search es_client JOBS_INDEX (mkQuery clauses 1))))).
Proof.
  intros Hen. split; intros Hget clauses; subst clauses.
  - rewrite (find_matches_filters_dict _ _ _ _ Hen). simpl.
    rewrite find_matching_candidates_for_job_repository.
    unfold ElasticsearchCandidateRepository.find_matches_for_job.
    unfold ElasticsearchJobRepository.get_by_id in Hget. rewrite Hget. simpl.
    destruct (list_is_empty _); reflexivity.
  - rewrite (find_matches_filters_dict _ _ _ _ Hen). simpl.
    rewrite find_matching_jobs_for_candidate_repository.
    unfold ElasticsearchJobRepository.find_matches_for_candidate.
    unfold ElasticsearchCandidateRepository.get_by_id in Hget. rewrite Hget. simpl.
    destruct (list_is_empty _); reflexivity.
Qed.

Lemma find_matches_returns_search_hits_witness :
  MatchingApplicationService.find_matches
    (@create_matching_application_service RefLib.lib index_without_salaries)
    "1" "job" (MatchFiltersDTO.mk false true false)
  = Ok [mkMatchDTO "2" 0.95].
Proof.
  refine (eq_trans
    (proj1 (@find_matches_returns_search_hits RefLib.lib index_without_salaries "1"
              (MatchFiltersDTO.mk false true false)
              (Job.mk (mkUUID 1) [mkSkill "Python"; mkSkill "AWS"] []
                      [mkSeniority MIDLEVEL; mkSeniority SENIOR] None)
              (Candidate.mk (mkUUID 1) [] [] None None) eq_refl) _) _);
    vm_compute; reflexivity.
Defined.

(** With a filter enabled, a document type other than "job" and
    "candidate" is refused with the ValueError "Invalid document type: ..."
    before any repository is consulted. *)
Theorem find_matches_invalid_document_type
    (self : MatchingApplicationService.t) (doc_id doc_type : string)
    (filters : MatchFiltersDTO.t) :
  some_filter_enabled filters = true ->
  doc_type <> "job" -> doc_type <> "candidate" ->
  MatchingApplicationService.find_matches self doc_id doc_type filters
  = Raise (ValueError ("Invalid document type: " ++ doc_type)).
Proof.
  intros Hen Hj Hc. rewrite (find_matches_filters_dict _ _ _ _ Hen).
  apply String.eqb_neq in Hj, Hc. rewrite Hj, Hc. reflexivity.
Qed.

Lemma find_matches_invalid_document_type_witness :
  MatchingApplicationService.find_matches
    (@create_matching_application_service RefLib.lib index_without_salaries)
    "1" "jobs" (MatchFiltersDTO.mk true false false)
  = Raise (ValueError "Invalid document type: jobs").
Proof.
  refine (find_matches_invalid_document_type
            (@create_matching_application_service RefLib.lib index_without_salaries)
            "1" "jobs" (MatchFiltersDTO.mk true false false) eq_refl _ _);
    discriminate.
Defined.

(** ** The stand-alone service *)

(** When the health probe fails, the service's fetch and its match
    operation raise ConnectionError for every id, document type and filter
    dictionary, the one with no filter enabled included; the index is not
    read. *)
Theorem service_unavailable_takes_precedence
    (es : Elasticsearch) (doc_id doc_type : string) (filters : gmap string bool) :
  ElasticsearchService.check_connection es = false ->
  ElasticsearchService.get_document es doc_id doc_type
  = Raise (ConnectionError "Elasticsearch service is not available") /\
  ElasticsearchService.find_matches es doc_id doc_type filters
  = Raise (ConnectionError "Elasticsearch service is not available").
Proof.
  intros Hdown.
  unfold ElasticsearchService.get_document, ElasticsearchService.find_matches.
  rewrite Hdown. split; reflexivity.
Qed.

Lemma service_unavailable_takes_precedence_witness :
  ElasticsearchService.find_matches
    {| cluster_health := Raise (ConnectionError "refused");
       es_get := fun _ _ => Ok (Some job_without_salary);
       es_search := fun _ _ _ => Ok [] |}
    "1" "job" ∅
  = Raise (ConnectionError "Elasticsearch service is not available").
Proof.
  exact (proj2 (service_unavailable_takes_precedence
                  {| cluster_health := Raise (ConnectionError "refused");
                     es_get := fun _ _ => Ok (Some job_without_salary);
                     es_search := fun _ _ _ => Ok [] |}
                  "1" "job" ∅ eq_refl)).
Defined.

(** The salary clause is built exactly when the source document has the
    salary key, and its bound is the stored value as it is, whatever its
    type: a stored null gives a clause with a null bound. *)
Theorem build_salary_query_key_only
    (source_doc : gmap string pyval) (doc_type : string) (v : pyval) :
  let key := if String.eqb doc_type "job" then "max_salary" else "salary_expectation" in
  is_ok (ElasticsearchService._build_salary_query source_doc doc_type)
  = dict_contains source_doc key /\
  (source_doc !! key = Some v ->
   ElasticsearchService._build_salary_query source_doc doc_type
   = Ok (if String.eqb doc_type "job"
         then RangeClause "salary_expectation" Lte v
         else RangeClause "max_salary" Gte v)) /\
  ElasticsearchService._build_salary_query (<["max_salary" := PNone]> source_doc) "job"
  = Ok (RangeClause "salary_expectation" Lte PNone).
Proof.
  unfold ElasticsearchService._build_salary_query, dict_item, dict_contains.
  destruct (String.eqb doc_type "job"); simpl.
  - split; [destruct (source_doc !! "max_salary"); reflexivity|].
    split; [intros ->; reflexivity|]. now rewrite lookup_insert_eq.
  - split; [destruct (source_doc !! "salary_expectation"); reflexivity|].
    split; [intros ->; reflexivity|]. now rewrite lookup_insert_eq.
Qed.

Lemma build_salary_query_key_only_witness :
  ElasticsearchService._build_salary_query ElasticsearchClientImpl.mock_candidate "candidate"
  = Ok (RangeClause "max_salary" Gte (PInt 80000)).
Proof.
  refine (proj1 (proj2 (build_salary_query_key_only
                          ElasticsearchClientImpl.mock_candidate "candidate" (PInt 80000))) _).
  vm_compute. reflexivity.
Defined.

(** The skill and seniority clauses of the service fail hard on missing
    data: the skill clause raises "Source document has no top skills"
    exactly when ["top_skills"] is missing or falsy, and the seniority
    clause raises its ValueError exactly when the source's seniority field
    (["seniorities"] for a job, ["seniority"] otherwise) is missing or
    falsy; built, the seniority clause carries the stored value. *)
Theorem skill_and_seniority_clauses_need_data
    (source_doc : gmap string pyval) (doc_type : string) :
  (ElasticsearchService._build_skills_query source_doc
   = Raise (ValueError "Source document has no top skills")
   <-> truthy (dict_get source_doc "top_skills" (PList [])) = false) /\
  (ElasticsearchService._build_seniority_query source_doc "job"
   = (if truthy (dict_get source_doc "seniorities" (PList []))
      then Ok (TermsClause "seniority" (dict_get source_doc "seniorities" (PList []))
                           (FILTER_WEIGHT "seniority_match") None)
      else Raise (ValueError "Job document has no seniorities defined"))) /\
  (doc_type <> "job" ->
   ElasticsearchService._build_seniority_query source_doc doc_type
   = (if truthy (dict_get source_doc "seniority" PNone)
      then Ok (TermClause "seniorities" (dict_get source_doc "seniority" PNone)
                          (FILTER_WEIGHT "seniority_match"))
      else Raise (ValueError "Candidate document has no seniority defined"))).
Proof.
  split; [|split].
  - unfold ElasticsearchService._build_skills_query.
    destruct (dict_get source_doc "top_skills" (PList [])) as [|z|s|l]; simpl.
    + split; reflexivity.
    + destruct (z =? 0)%Z; simpl; split; try reflexivity; discriminate.
    + destruct s; simpl; split; try reflexivity; discriminate.
    + destruct l; simpl; split; try reflexivity; discriminate.
  - unfold ElasticsearchService._build_seniority_query. simpl.
    destruct (truthy (dict_get source_doc "seniorities" (PList []))); reflexivity.
  - intros Hne. apply String.eqb_neq in Hne.
    unfold ElasticsearchService._build_seniority_query. rewrite Hne.
    destruct (truthy (dict_get source_doc "seniority" PNone)); reflexivity.
Qed.

Lemma skill_and_seniority_clauses_need_data_witness :
  ElasticsearchService._build_seniority_query candidate_without_salary "candidate"
  = Ok (TermClause "seniorities" (PStr "senior") (FILTER_WEIGHT "seniority_match")).
Proof.
  refine (eq_trans
    (proj2 (proj2 (skill_and_seniority_clauses_need_data
                     candidate_without_salary "candidate")) _) _).
  - discriminate.
  - vm_compute. reflexivity.
Defined.

Lemma get_document_Ok_connected es doc_id doc_type source_doc :
  ElasticsearchService.get_document es doc_id doc_type = Ok source_doc ->
  ElasticsearchService.check_connection es = true.
Proof.
  unfold ElasticsearchService.get_document.
  destruct (ElasticsearchService.check_connection es); [reflexivity|discriminate].
Qed.

(** In the service, an empty filter set is refused only after the source
    was fetched: with the source found and no filter enabled the call raises
    "At least one filter must be enabled", while a source that is not found
    raises its own ValueError first. *)
Theorem service_rejects_empty_filters_after_fetch
    (es : Elasticsearch) (doc_id doc_type : string) (filters : gmap string bool)
    (source_doc : gmap string pyval) :
  enabled_count filters = 0 ->
  (ElasticsearchService.get_document es doc_id doc_type = Ok source_doc ->
   ElasticsearchService.find_matches es doc_id doc_type filters
   = Raise (ValueError "At least one filter must be enabled")) /\
  (ElasticsearchService.check_connection es = true ->
   es_get es (if String.eqb doc_type "job" then JOBS_INDEX else CANDIDATES_INDEX) doc_id
   = Raise NotFoundError ->
   ElasticsearchService.find_matches es doc_id doc_type filters
   = Raise (ValueError (str_capitalize doc_type ++ " with ID " ++ doc_id ++ " not found"))).
Proof.
  intros Hnone. unfold enabled_count in Hnone.
  destruct (dict_get filters "salary_match" false) eqn:E1; [discriminate|].
  destruct (dict_get filters "top_skill_match" false) eqn:E2; [discriminate|].
  destruct (dict_get filters "seniority_match" false) eqn:E3; [discriminate|].
  split.
  - intros Hget. pose proof (get_document_Ok_connected _ _ _ _ Hget) as Hc.
    unfold ElasticsearchService.find_matches.
    rewrite Hc, Hget, E1, E2, E3. reflexivity.
  - intros Hc Hnf. unfold ElasticsearchService.find_matches.
    rewrite Hc. simpl. unfold ElasticsearchService.get_document.
    rewrite Hc. simpl. rewrite Hnf. reflexivity.
Qed.

Lemma service_rejects_empty_filters_after_fetch_witness :
  ElasticsearchService.find_matches service_without_salaries "1" "job" ∅
  = Raise (ValueError "At least one filter must be enabled").
Proof.
  refine (proj1 (service_rejects_empty_filters_after_fetch service_without_salaries
                   "1" "job" ∅ job_without_salary _) _); vm_compute; reflexivity.
Defined.

(** A successful call of the service's match operation made one search: on
    the counterpart index, bounded to 100 results, with one clause per
    enabled filter and [minimum_should_match] 1; the result lists the hits in
    the order of the reply. *)
Theorem service_find_matches_one_clause_per_filter
    (es : Elasticsearch) (doc_id doc_type : string) (filters : gmap string bool)
    (matches : list MatchDTO) :
  ElasticsearchService.find_matches es doc_id doc_type filters = Ok matches ->
  exists clauses hits,
    length clauses = enabled_count filters /\
    (0 < enabled_count filters)%nat /\
    es_search es (if String.eqb doc_type "job" then CANDIDATES_INDEX else JOBS_INDEX)
              (mkQuery clauses 1) 100 = Ok hits /\
    matches = List.map (fun h => mkMatchDTO (hit_id h) (hit_score h)) hits.
Proof.
  unfold ElasticsearchService.find_matches, enabled_count,
         ElasticsearchService.append_if.
  destruct (negb (ElasticsearchService.check_connection es)); [discriminate|].
  destruct (ElasticsearchService.get_document es doc_id doc_type) as [doc|e];
    [|discriminate]. simpl.
  destruct (dict_get filters "salary_match" false);
    [destruct (ElasticsearchService._build_salary_query doc doc_type) as [c1|e];
     [|discriminate]|]; simpl;
  (destruct (dict_get filters "top_skill_match" false);
    [destruct (ElasticsearchService._build_skills_query doc) as [c2|e];
     [|discriminate]|]); simpl;
  (destruct (dict_get filters "seniority_match" false);
    [destruct (ElasticsearchService._build_seniority_query doc doc_type) as [c3|e];
     [|discriminate]|]); simpl; try discriminate;
  (match goal with
   | |- context [es_search es ?i ?q 100] =>
       destruct (es_search es i q 100) as [hits|e] eqn:Es; [|discriminate]
   end);
  simpl; intros [= <-];
  eexists _, hits; (split; [|split; [|split; [exact Es|reflexivity]]]);
  simpl; lia.
Qed.

Lemma service_find_matches_one_clause_per_filter_witness :
  exists clauses hits,
    length clauses = enabled_count (<["top_skill_match" := true]> ∅) /\
    (0 < enabled_count (<["top_skill_match" := true]> ∅))%nat /\
    es_search service_without_salaries CANDIDATES_INDEX (mkQuery clauses 1) 100 = Ok hits /\
    [mkMatchDTO "2" 0.95] = List.map (fun h => mkMatchDTO (hit_id h) (hit_score h)) hits.
Proof.
  refine (service_find_matches_one_clause_per_filter service_without_salaries
            "1" "job" (<["top_skill_match" := true]> ∅) [mkMatchDTO "2" 0.95] _).
  vm_compute. reflexivity.
Defined.

(** The service and the repositories build the same clauses.  For a job
    with a top skill, a seniority and a maximum salary, the three clauses
    the service builds from the job's document are, in order, the list the
    candidate repository builds from the job with all filters enabled; the
    same holds for a candidate with a top skill, a seniority and a salary
    expectation and the job repository. *)
Theorem service_and_repository_build_the_same_clauses
    (job : Job.t) (candidate : Candidate.t) :
  (Job.top_skills job <> [] -> Job.seniorities job <> [] -> Job.max_salary job <> None ->
   let doc := JobMapper.to_document job in
   (salary ← ElasticsearchService._build_salary_query doc "job";
    skills ← ElasticsearchService._build_skills_query doc;
    seniority ← ElasticsearchService._build_seniority_query doc "job";
    Ok [salary; skills; seniority])
   = Ok (ElasticsearchCandidateRepository.should_queries job all_filters)) /\
  (Candidate.top_skills candidate <> [] -> Candidate.seniority candidate <> None ->
   Candidate.salary_expectation candidate <> None ->
   let doc := CandidateMapper.to_document candidate in
   (salary ← ElasticsearchService._build_salary_query doc "candidate";
    skills ← ElasticsearchService._build_skills_query doc;
    seniority ← ElasticsearchService._build_seniority_query doc "candidate";
    Ok [salary; skills; seniority])
   = Ok (ElasticsearchJobRepository.should_queries candidate all_filters)).
Proof.
  split.
  - destruct job as [id top other sens [sal|]]; simpl; intros Ht Hs Hm;
      [|congruence].
    destruct top as [|t top]; [congruence|]. destruct sens as [|s sens]; [congruence|].
    set (job := Job.mk id (t :: top) other (s :: sens) (Some sal)).
    assert (JobMapper.to_document job !! "max_salary" = Some (PInt (value sal)))
      as E1 by reflexivity.
    assert (dict_get (JobMapper.to_document job) "top_skills" (PList [])
            = skill_strs (t :: top)) as E2 by reflexivity.
    assert (dict_get (JobMapper.to_document job) "seniorities" (PList [])
            = PList ((fun x => PStr (SeniorityOps.to_str x)) <$> (s :: sens)))
      as E3 by reflexivity.
    unfold ElasticsearchService._build_salary_query,
      ElasticsearchService._build_skills_query,
      ElasticsearchService._build_seniority_query, dict_item.
    simpl String.eqb. cbv iota. rewrite E1, E2, E3.
    unfold ElasticsearchCandidateRepository.should_queries, skill_strs. simpl.
    rewrite !length_fmap, <- !list_fmap_compose. reflexivity.
  - destruct candidate as [id top other [sen|] [sal|]]; simpl; intros Ht Hs Hm;
      try congruence.
    destruct top as [|t top]; [congruence|].
    set (candidate := Candidate.mk id (t :: top) other (Some sen) (Some sal)).
    assert (CandidateMapper.to_document candidate !! "salary_expectation"
            = Some (PInt (value sal))) as E1 by reflexivity.
    assert (dict_get (CandidateMapper.to_document candidate) "top_skills" (PList [])
            = skill_strs (t :: top)) as E2 by reflexivity.
    assert (dict_get (CandidateMapper.to_document candidate) "seniority" PNone
            = PStr (SeniorityOps.to_str sen)) as E3 by reflexivity.
    unfold ElasticsearchService._build_salary_query,
      ElasticsearchService._build_skills_query,
      ElasticsearchService._build_seniority_query, dict_item.
    simpl String.eqb. cbv iota. rewrite E1, E2, E3.
    unfold ElasticsearchJobRepository.should_queries, skill_strs. simpl.
    rewrite !length_fmap, <- !list_fmap_compose.
    destruct sen as [[]]; reflexivity.
Qed.

Lemma service_and_repository_build_the_same_clauses_witness :
  let job := Job.mk (mkUUID 1) [mkSkill "Python"; mkSkill "AWS"] []
                    [mkSeniority MIDLEVEL; mkSeniority SENIOR] (Some (mkSalary 85000)) in
  let doc := JobMapper.to_document job in
  (salary ← ElasticsearchService._build_salary_query doc "job";
   skills ← ElasticsearchService._build_skills_query doc;
   seniority ← ElasticsearchService._build_seniority_query doc "job";
   Ok [salary; skills; seniority])
  = Ok (ElasticsearchCandidateRepository.should_queries job all_filters).
Proof.
  intros job.
  refine (proj1 (service_and_repository_build_the_same_clauses job
                   (Candidate.mk (mkUUID 1) [] [] None None)) _ _ _); discriminate.
Defined.

(** ** The client wrapper *)

(** Outside mock mode the wrapper turns every failure of the library
    client into an ordinary answer, and the repositories cannot tell the
    difference: a fetch that raises (or a wrapper without a client) makes the
    repository report the source as not found, and a search that raises makes
    it return the empty list. *)
Theorem client_failures_look_like_absence `{PyLib}
    (state : ElasticsearchClientState) (client : Elasticsearch) (e : exception)
    (doc_id : string) (filters : gmap string bool) (job : Job.t) :
  _mock_mode state = false ->
  let es_client := ElasticsearchClientImpl.as_client state in
  (_client state = None \/
   (_client state = Some client /\ es_get client JOBS_INDEX doc_id = Raise e) ->
   ElasticsearchCandidateRepository.find_matches_for_job es_client doc_id filters
   = Raise (ValueError ("Job with ID " ++ doc_id ++ " not found"))) /\
  (_client state = Some client ->
   ElasticsearchJobRepository.get_by_id es_client doc_id = Ok (Some job) ->
   es_search client CANDIDATES_INDEX
     (mkQuery (ElasticsearchCandidateRepository.should_queries job filters) 1) 100
   = Raise e ->
   ElasticsearchCandidateRepository.find_matches_for_job es_client doc_id filters = Ok []).
Proof.
  intros Hmock es_client. subst es_client. split.
  - intros Hfail.
    unfold ElasticsearchCandidateRepository.find_matches_for_job, job_get_by_id,
      ElasticsearchClientImpl.as_client. simpl.
    unfold ElasticsearchClientImpl.get_document. rewrite Hmock.
    destruct Hfail as [-> | [-> ->]]; reflexivity.
  - intros Hc Hget Hsearch.
    unfold ElasticsearchCandidateRepository.find_matches_for_job.
    unfold ElasticsearchJobRepository.get_by_id in Hget. rewrite Hget. simpl.
    destruct (list_is_empty _); [reflexivity|].
    unfold ElasticsearchClientImpl.search. rewrite Hmock, Hc, Hsearch. reflexivity.
Qed.

Lemma client_failures_look_like_absence_witness :
  @ElasticsearchCandidateRepository.find_matches_for_job RefLib.lib
    (ElasticsearchClientImpl.as_client (mkClientState None false)) "1" all_filters
  = Raise (ValueError "Job with ID 1 not found").
Proof.
  exact (proj1 (@client_failures_look_like_absence RefLib.lib
                  (mkClientState None false) service_without_salaries TypeError
                  "1" all_filters (Job.mk (mkUUID 1) [] [] [] None) eq_refl)
               (or_introl eq_refl)).
Defined.

Lemma mock_job_decodes `{PyLib} :
  JobMapper.to_domain "1" ElasticsearchClientImpl.mock_job
  = (uuid_id ← uuid_of_doc_id "1";
     Ok (Job.mk uuid_id
           [mkSkill "Python"; mkSkill "AWS"; mkSkill "Machine Learning"]
           [mkSkill "Docker"; mkSkill "Kubernetes"; mkSkill "Git"]
           [mkSeniority MIDLEVEL; mkSeniority SENIOR] (Some (mkSalary 85000)))).
Proof. reflexivity. Qed.

Lemma mock_candidate_decodes `{PyLib} :
  CandidateMapper.to_domain "1" ElasticsearchClientImpl.mock_candidate
  = (uuid_id ← uuid_of_doc_id "1";
     Ok (Candidate.mk uuid_id
           [mkSkill "Python"; mkSkill "AWS"; mkSkill "TypeScript"]
           [mkSkill "React"; mkSkill "Node.js"]
           (Some (mkSeniority SENIOR)) (Some (mkSalary 80000)))).
Proof. reflexivity. Qed.

(** In mock mode the match operation knows one job and one candidate, both
    with the id "1": for them every filter choice with a filter enabled
    gives the same three canned matches, and every other id is reported as
    not found. *)
Theorem mock_mode_matches `{PyLib}
    (state : ElasticsearchClientState) (filters : MatchFiltersDTO.t)
    (doc_id : string) (uuid : UUID) :
  _mock_mode state = true ->
  some_filter_enabled filters = true ->
  let service :=
    create_matching_application_service (ElasticsearchClientImpl.as_client state) in
  (uuid_of_doc_id "1" = Ok uuid ->
   MatchingApplicationService.find_matches service "1" "job" filters = Ok mock_matches /\
   MatchingApplicationService.find_matches service "1" "candidate" filters
   = Ok mock_matches) /\
  (doc_id <> "1" ->
   MatchingApplicationService.find_matches service doc_id "job" filters
   = Raise (ValueError ("Job with ID " ++ doc_id ++ " not found")) /\
   MatchingApplicationService.find_matches service doc_id "candidate" filters
   = Raise (ValueError ("Candidate with ID " ++ doc_id ++ " not found"))).
Proof.
  intros Hmock Hen service. subst service. split.
  - intros Hid. split.
    + rewrite (find_matches_filters_dict _ _ _ _ Hen). simpl.
      rewrite find_matching_candidates_for_job_repository.
      unfold ElasticsearchCandidateRepository.find_matches_for_job, job_get_by_id.
      simpl. unfold ElasticsearchClientImpl.get_document,
        ElasticsearchClientImpl.search. rewrite Hmock. simpl.
      rewrite mock_job_decodes, Hid.
      destruct filters as [[] [] []]; try discriminate Hen; reflexivity.
    + rewrite (find_matches_filters_dict _ _ _ _ Hen). simpl.
      rewrite find_matching_jobs_for_candidate_repository.
      unfold ElasticsearchJobRepository.find_matches_for_candidate, candidate_get_by_id.
      simpl. unfold ElasticsearchClientImpl.get_document,
        ElasticsearchClientImpl.search. rewrite Hmock. simpl.
      rewrite mock_candidate_decodes, Hid.
      destruct filters as [[] [] []]; try discriminate Hen; reflexivity.
  - intros Hne. apply String.eqb_neq in Hne. split.
    + rewrite (find_matches_filters_dict _ _ _ _ Hen). simpl.
      rewrite find_matching_candidates_for_job_repository.
      unfold ElasticsearchCandidateRepository.find_matches_for_job, job_get_by_id.
      simpl. unfold ElasticsearchClientImpl.get_document. rewrite Hmock, Hne. simpl.
      reflexivity.
    + rewrite (find_matches_filters_dict _ _ _ _ Hen). simpl.
      rewrite find_matching_jobs_for_candidate_repository.
      unfold ElasticsearchJobRepository.find_matches_for_candidate, candidate_get_by_id.
      simpl. unfold ElasticsearchClientImpl.get_document. rewrite Hmock, Hne. simpl.
      reflexivity.
Qed.

Lemma mock_mode_matches_witness :
  MatchingApplicationService.find_matches
    (@create_matching_application_service RefLib.lib
       (ElasticsearchClientImpl.as_client (mkClientState None true)))
    "1" "job" (MatchFiltersDTO.mk false false true)
  = Ok mock_matches.
Proof.
  refine (proj1 (proj1 (@mock_mode_matches RefLib.lib (mkClientState None true)
                          (MatchFiltersDTO.mk false false true) "2" (mkUUID 1)
                          eq_refl eq_refl) _)).
  vm_compute. reflexivity.
Defined.

(** ** The document service and the routes *)

Lemma to_str_in_VALID_SENIORITIES seniority :
  In (SeniorityOps.to_str seniority) VALID_SENIORITIES.
Proof. destruct seniority as [[]]; simpl; tauto. Qed.

Lemma Forall_fmap_to_str_stripped skills :
  Forall valid_skill skills ->
  Forall (fun n => str_strip n = n /\ n <> "") (SkillOps.to_str <$> skills).
Proof.
  induction 1 as [|k ks Hk _ IH]; simpl; constructor; [|exact IH].
  now apply valid_skill_name.
Qed.

(** What the document service returns for a job or a candidate is fit for
    the response schema: every seniority is one of the valid values, every
    skill name is stripped and not empty, and a salary is not negative. *)
Theorem document_service_dtos_are_well_formed `{PyLib}
    (es_client : ElasticsearchClient) (doc_id : string)
    (job : JobDTO.t) (candidate : CandidateDTO.t) :
  let service := create_document_service es_client in
  let stripped n := str_strip n = n /\ n <> "" in
  (DocumentService.get_job service doc_id = Ok (Some job) ->
   Forall (fun s => In s VALID_SENIORITIES) (JobDTO.seniorities job) /\
   Forall stripped (JobDTO.top_skills job) /\
   Forall stripped (JobDTO.other_skills job) /\
   (forall v, JobDTO.max_salary job = Some v -> (0 <= v)%Z)) /\
  (DocumentService.get_candidate service doc_id = Ok (Some candidate) ->
   (forall s, CandidateDTO.seniority candidate = Some s -> In s VALID_SENIORITIES) /\
   Forall stripped (CandidateDTO.top_skills candidate) /\
   Forall stripped (CandidateDTO.other_skills candidate) /\
   (forall v, CandidateDTO.salary_expectation candidate = Some v -> (0 <= v)%Z)).
Proof.
  intros service stripped. subst service. split.
  - unfold DocumentService.get_job. simpl.
    unfold ElasticsearchJobRepository.get_by_id, job_get_by_id.
    destruct (get_document es_client JOBS_INDEX doc_id) as [doc|]; [|discriminate].
    destruct (dict_is_empty doc); [discriminate|].
    destruct (JobMapper.to_domain doc_id doc) as [j|e] eqn:Hdom; [|discriminate].
    simpl. intros [= <-]. simpl.
    apply JobMapper_to_domain_Ok in Hdom as (Ht & Ho & Hs & _).
    apply skills_field_valid in Ht, Ho.
    split; [|split; [|split]].
    + induction (Job.seniorities j); simpl; constructor;
        [apply to_str_in_VALID_SENIORITIES|assumption].
    + now apply Forall_fmap_to_str_stripped.
    + now apply Forall_fmap_to_str_stripped.
    + intros v. destruct (Job.max_salary j) as [s|] eqn:E; [|discriminate].
      intros [= <-]. now apply salary_field_nonneg in Hs.
  - unfold DocumentService.get_candidate. simpl.
    unfold ElasticsearchCandidateRepository.get_by_id, candidate_get_by_id.
    destruct (get_document es_client CANDIDATES_INDEX doc_id) as [doc|]; [|discriminate].
    destruct (dict_is_empty doc); [discriminate|].
    destruct (CandidateMapper.to_domain doc_id doc) as [c|e] eqn:Hdom; [|discriminate].
    simpl. intros [= <-]. simpl.
    apply CandidateMapper_to_domain_Ok in Hdom as (Ht & Ho & Hs & _).
    apply skills_field_valid in Ht, Ho.
    split; [|split; [|split]].
    + intros s. destruct (Candidate.seniority c); [|discriminate].
      intros [= <-]. apply to_str_in_VALID_SENIORITIES.
    + now apply Forall_fmap_to_str_stripped.
    + now apply Forall_fmap_to_str_stripped.
    + intros v. destruct (Candidate.salary_expectation c) as [s|] eqn:E; [|discriminate].
      intros [= <-]. now apply salary_field_nonneg in Hs.
Qed.

Lemma document_service_dtos_are_well_formed_witness :
  Forall (fun s => In s VALID_SENIORITIES) ["midlevel"; "senior"].
Proof.
  exact (proj1 (proj1 (@document_service_dtos_are_well_formed RefLib.lib
    (ElasticsearchClientImpl.as_client (mkClientState None true)) "1"
    (JobDTO.mk "00000000-0000-0000-0000-000000000001"
       ["Python"; "AWS"; "Machine Learning"] ["Docker"; "Kubernetes"; "Git"]
       ["midlevel"; "senior"] (Some 85000%Z))
    (CandidateDTO.mk "" [] [] None None)) eq_refl)).
Defined.

Lemma find_matches_no_filter self doc_id doc_type :
  MatchingApplicationService.find_matches self doc_id doc_type
    (MatchFiltersDTO.mk false false false)
  = Raise (ValueError "At least one filter must be enabled").
Proof.
  unfold MatchingApplicationService.find_matches.
  cbn [MatchFiltersDTO.seniority_match MatchFiltersDTO.top_skill_match
       MatchFiltersDTO.salary_match].
  rewrite all_filters_disabled. reflexivity.
Qed.

(** The matches route reads the three known keys of the ["filters"] object
    and nothing else: two requests that agree on the id, the document type
    and these three keys get the same response.  A request whose three keys
    are all missing or false is answered 400 with "At least one filter must
    be enabled", whatever the id, the document type and the service. *)
Theorem matches_route_reads_three_filters
    (service : MatchingApplicationService.t) (doc_id doc_type : string)
    (filters filters' : gmap string bool) :
  (dict_get filters "salary_match" false = dict_get filters' "salary_match" false ->
   dict_get filters "top_skill_match" false = dict_get filters' "top_skill_match" false ->
   dict_get filters "seniority_match" false = dict_get filters' "seniority_match" false ->
   matching_routes.find_matches service (Loaded (mkMatchingQuery doc_id doc_type filters))
   = matching_routes.find_matches service
       (Loaded (mkMatchingQuery doc_id doc_type filters'))) /\
  (enabled_count filters = 0 ->
   matching_routes.find_matches service (Loaded (mkMatchingQuery doc_id doc_type filters))
   = (ErrorBody "At least one filter must be enabled", 400)).
Proof.
  split.
  - intros E1 E2 E3. unfold matching_routes.find_matches, MatchFiltersDTO.from_dict.
    simpl. now rewrite E1, E2, E3.
  - unfold enabled_count. intros Hnone.
    destruct (dict_get filters "salary_match" false) eqn:E1; [discriminate|].
    destruct (dict_get filters "top_skill_match" false) eqn:E2; [discriminate|].
    destruct (dict_get filters "seniority_match" false) eqn:E3; [discriminate|].
    unfold matching_routes.find_matches, MatchFiltersDTO.from_dict. simpl.
    rewrite E1, E2, E3, find_matches_no_filter. reflexivity.
Qed.

Lemma matches_route_reads_three_filters_witness :
  matching_routes.find_matches
    (@create_matching_application_service RefLib.lib index_without_salaries)
    (Loaded (mkMatchingQuery "1" "job" (<["limit" := true]> ∅)))
  = (ErrorBody "At least one filter must be enabled", 400).
Proof.
  refine (proj2 (matches_route_reads_three_filters
    (@create_matching_application_service RefLib.lib index_without_salaries)
    "1" "job" (<["limit" := true]> ∅) ∅) _).
  vm_compute. reflexivity.
Defined.

(** A source that the index does not hold is answered differently by the
    two routes: the matches route, asked with a filter enabled, answers 400
    and the document route 404, both with the message "... with ID ... not
    found". *)
Theorem missing_source_status_codes `{PyLib}
    (es_client : ElasticsearchClient) (doc_id : string) (filters : gmap string bool) :
  get_document es_client JOBS_INDEX doc_id = None ->
  some_filter_enabled (MatchFiltersDTO.from_dict filters) = true ->
  matching_routes.find_matches (create_matching_application_service es_client)
    (Loaded (mkMatchingQuery doc_id "job" filters))
  = (ErrorBody ("Job with ID " ++ doc_id ++ " not found"), 400) /\
  document_routes.get_document (create_document_service es_client)
    (Loaded (mkDocumentQuery doc_id "job"))
  = (ErrorBody ("Job with ID " ++ doc_id ++ " not found"), 404).
Proof.
  intros Hnone Hen. split.
  - unfold matching_routes.find_matches. simpl.
    rewrite (find_matches_filters_dict _ _ _ _ Hen). simpl.
    rewrite find_matching_candidates_for_job_repository.
    unfold ElasticsearchCandidateRepository.find_matches_for_job, job_get_by_id.
    rewrite Hnone. reflexivity.
  - unfold document_routes.get_document, DocumentService.get_job. simpl.
    unfold ElasticsearchJobRepository.get_by_id, job_get_by_id.
    rewrite Hnone. reflexivity.
Qed.

Lemma missing_source_status_codes_witness :
  @document_routes.get_document RefLib.lib
    (@create_document_service RefLib.lib index_without_salaries)
    (Loaded (mkDocumentQuery "42" "job"))
  = (ErrorBody "Job with ID 42 not found", 404).
Proof.
  exact (proj2 (@missing_source_status_codes RefLib.lib index_without_salaries "42"
                  only_salary_match eq_refl eq_refl)).
Defined.
